(** * fipy.ngsi.entity: basic NGSI v2 data types

    A shallow embedding of [src/fipy/ngsi/entity.py] and the properties
    its specification states about it.

    Python values are embedded as the inductive type [value]; a call that
    may raise returns a [result].  The three builtins whose text format is
    fixed by the interpreter rather than by this module ([float()],
    [repr()] and [json.dumps]) are section variables, so every theorem
    holds whatever they compute. *)

From Stdlib Require Import ZArith List String Ascii Bool Lia Floats.
Import ListNotations.

Local Open Scope string_scope.
Local Open Scope Z_scope.

Set Warnings "-register-all".
Set Warnings "-notation-overridden".


(** ** Python values and exceptions *)

(** A [dict] with [str] keys, in insertion order.  The payloads this module
    receives are decoded JSON objects and keyword arguments, whose keys are
    always strings. *)
Inductive value : Type :=
| VNone
| VBool (b : bool)
| VInt (z : Z)
| VFloat (f : float)
| VStr (s : string)
| VList (l : list value)
| VTuple (l : list value)
| VDict (d : list (string * value))
| VModel (classes : list string) (fields : list (string * value)).

Definition dict : Type := list (string * value).

Inductive exn : Type :=
| TypeError
| ValueError
| AttributeError
| NameError
| ConfigError
| OverflowError
| ValidationError.

Inductive result (A : Type) : Type :=
| Ok (a : A)
| Raise (e : exn).

Arguments Ok {A} a.
Arguments Raise {A} e.

Definition bind {A B : Type} (r : result A) (k : A -> result B) : result B :=
  match r with
  | Ok a => k a
  | Raise e => Raise e
  end.

Notation "x <- r ;; k" := (bind r (fun x => k))
  (at level 61, r at next level, right associativity).

(** A list comprehension [[f(x) for x in l]]: elements are evaluated left
    to right and the first exception leaves the comprehension. *)
Fixpoint comprehension {A B : Type} (f : A -> result B) (l : list A)
  : result (list B) :=
  match l with
  | [] => Ok []
  | x :: l' => y <- f x ;; ys <- comprehension f l' ;; Ok (y :: ys)
  end.

(** ** Dictionaries *)

Module Dict.

(** [d.get(k)] *)
Fixpoint get (k : string) (d : dict) : option value :=
  match d with
  | [] => None
  | (k', v) :: d' => if String.eqb k k' then Some v else get k d'
  end.

(** [d.get(k, default)] *)
Definition get_default (k : string) (default : value) (d : dict) : value :=
  match get k d with
  | Some v => v
  | None => default
  end.

(** [d[k] = v]: an existing key keeps its position, a new key is
    appended. *)
Fixpoint set (k : string) (v : value) (d : dict) : dict :=
  match d with
  | [] => [(k, v)]
  | (k', v') :: d' =>
      if String.eqb k k' then (k', v) :: d' else (k', v') :: set k v d'
  end.

(** [d.update(e)] *)
Definition update (d e : dict) : dict :=
  fold_left (fun acc kv => set (fst kv) (snd kv) acc) e d.

Definition keys (d : dict) : list string := map fst d.

(** Number of entries stored under [k]. *)
Definition count (k : string) (d : dict) : nat :=
  List.length (filter (fun kv => String.eqb k (fst kv)) d).

End Dict.

(** [for x in v]: lists and tuples yield their elements, strings their
    characters, dictionaries their keys, model instances the pairs of a
    field's name and value; the other values are not iterable. *)
Fixpoint chars (s : string) : list value :=
  match s with
  | EmptyString => []
  | String c s' => VStr (String c EmptyString) :: chars s'
  end.

Definition iterate (v : value) : result (list value) :=
  match v with
  | VList l | VTuple l => Ok l
  | VStr s => Ok (chars s)
  | VDict d => Ok (map (fun k => VStr k) (Dict.keys d))
  | VModel _ fs => Ok (map (fun kv => VTuple [VStr (fst kv); snd kv]) fs)
  | _ => Raise TypeError
  end.

(** [v.get(k, default)]: only dictionaries have a [get] method. *)
Definition method_get (v : value) (k : string) (default : value)
  : result value :=
  match v with
  | VDict d => Ok (Dict.get_default k default d)
  | _ => Raise AttributeError
  end.

(** [v == s] for a string literal [s]: no value of another type equals a
    string. *)
Definition eq_str (v : value) (s : string) : bool :=
  match v with
  | VStr s' => String.eqb s' s
  | _ => false
  end.

(** [a != b] where [a] is the [type] of an entity, which is declared
    [str] and so always holds a string. *)
Definition differ (a b : value) : bool :=
  match a with
  | VStr s => negb (eq_str b s)
  | _ => true
  end.

(** ** fipy.dict.merge_dicts *)

(** Modelled from the spec: [fipy.dict.merge_dicts] is imported by
    [entity.py] but its module is not part of the sources at hand.  The
    specification describes it as a pure function that combines N mappings
    into one, where later entries override earlier ones with the same name
    (last-write-wins). *)
Definition merge_dicts (ds : list dict) : dict :=
  fold_left Dict.update ds [].

(** ** datetime *)

Record datetime : Type := mk_datetime {
  year : Z;
  month : Z;
  day : Z;
  hour : Z;
  minute : Z;
  second : Z;
  microsecond : Z;
  (** UTC offset in microseconds for an aware datetime *)
  tzinfo : option Z
}.

(** The parser follows [datetime.fromisoformat] of CPython 3.11, function
    by function ([_datetimemodule.c]); older interpreters read only the
    format [datetime.isoformat] writes.  A string is held as the bytes
    of its UTF-8 encoding, and a position is an index into them. *)
Module Iso.

(** The byte at [p], the terminating NUL from the end of the string on. *)
Definition byte_at (s : string) (p : nat) : Z :=
  match String.get p s with
  | Some c => Z.of_nat (nat_of_ascii c)
  | None => 0
  end.

Definition is_digit (c : Z) : bool := (48 <=? c) && (c <=? 57).

Definition is_char (c : Z) (a : ascii) : bool :=
  c =? Z.of_nat (nat_of_ascii a).

(** [parse_digits]: exactly [n] decimal digits from [p] on, added to
    [acc]; the value and the position after them. *)
Fixpoint parse_digits (s : string) (p : nat) (acc : Z) (n : nat)
  : option (Z * nat) :=
  match n with
  | O => Some (acc, p)
  | S n' =>
      let c := byte_at s p in
      if is_digit c then parse_digits s (S p) (10 * acc + (c - 48)) n'
      else None
  end.

Definition is_leap (y : Z) : bool :=
  (y mod 4 =? 0) && (negb (y mod 100 =? 0) || (y mod 400 =? 0)).

Definition days_in_month (y m : Z) : Z :=
  if m =? 2 then (if is_leap y then 29 else 28)
  else if (m =? 4) || (m =? 6) || (m =? 9) || (m =? 11) then 30
  else 31.

(** Days before the first of January of year [y] (proleptic Gregorian
    ordinal, as [datetime.toordinal] counts). *)
Definition days_before_year (y : Z) : Z :=
  let y' := y - 1 in y' * 365 + y' / 4 - y' / 100 + y' / 400.

Fixpoint days_before_month_aux (y : Z) (n : nat) : Z :=
  match n with
  | O => 0
  | S n' => days_before_month_aux y n' + days_in_month y (Z.of_nat n)
  end.

Definition days_before_month (y m : Z) : Z :=
  days_before_month_aux y (Z.to_nat (m - 1)).

Definition ymd_to_ord (y m d : Z) : Z :=
  days_before_year y + days_before_month y m + d.

(** Day of the week of a date, Monday being 0. *)
Definition weekday (y m d : Z) : Z := (ymd_to_ord y m d + 6) mod 7.

(** Ordinal of the Monday that starts week 1 of ISO year [y]. *)
Definition iso_week1_monday (y : Z) : Z :=
  let first_day := ymd_to_ord y 1 1 in
  let first_weekday := (first_day + 6) mod 7 in
  let week1_monday := first_day - first_weekday in
  if 3 <? first_weekday then week1_monday + 7 else week1_monday.

(** The month and day of the [n]-th day (from 0) of year [y]. *)
Fixpoint month_of (y : Z) (n : Z) (m : Z) (fuel : nat) : Z * Z :=
  match fuel with
  | O => (m, n + 1)
  | S fuel' =>
      if n <? days_in_month y m then (m, n + 1)
      else month_of y (n - days_in_month y m) (m + 1) fuel'
  end.

(** [ord_to_ymd] for an ordinal from 1 on. *)
Definition ord_to_ymd (ordinal : Z) : Z * Z * Z :=
  let o := ordinal - 1 in
  let n400 := o / 146097 in
  let n := o mod 146097 in
  let n100 := n / 36524 in
  let n := n mod 36524 in
  let n4 := n / 1461 in
  let n := n mod 1461 in
  let n1 := n / 365 in
  let n := n mod 365 in
  let y := n400 * 400 + 1 + n100 * 100 + n4 * 4 + n1 in
  if (n1 =? 4) || (n100 =? 4) then (y - 1, 12, 31)
  else let '(m, d) := month_of y n 1 11 in (y, m, d).

(** [iso_to_ymd]: week 53 exists in the years that start on a Thursday
    and in the leap years that start on a Wednesday. *)
Definition iso_to_ymd (iso_year iso_week iso_day : Z)
  : option (Z * Z * Z) :=
  let long_year :=
    let first_weekday := weekday iso_year 1 1 in
    (first_weekday =? 3) || ((first_weekday =? 2) && is_leap iso_year) in
  if ((iso_week <=? 0) || (53 <=? iso_week))
     && negb ((iso_week =? 53) && long_year)
  then None
  else if (iso_day <=? 0) || (8 <=? iso_day) then None
  else
    let ordinal :=
      iso_week1_monday iso_year + (iso_week - 1) * 7 + iso_day - 1 in
    if ordinal <? 1 then None else Some (ord_to_ymd ordinal).

(** [_find_isoformat_datetime_separator]: where the date ends, told
    from the characters at 4 and 5 and, for a week date, from what
    follows the week. *)
Fixpoint digits_end (s : string) (p : nat) (fuel : nat) : nat :=
  match fuel with
  | O => p
  | S fuel' => if is_digit (byte_at s p) then digits_end s (S p) fuel' else p
  end.

Definition find_separator (s : string) : option nat :=
  let len := String.length s in
  if Nat.eqb len 7 then Some 7%nat
  else if is_char (byte_at s 4) "-" then
    if is_char (byte_at s 5) "W" then
      if Nat.ltb len 8 then None
      else if Nat.ltb 8 len && is_char (byte_at s 8) "-" then
        if Nat.eqb len 9 then None
        else if Nat.ltb 10 len && is_digit (byte_at s 10) then Some 8%nat
        else Some 10%nat
      else Some 8%nat
    else Some 10%nat
  else if is_char (byte_at s 4) "W" then
    let idx := digits_end s 7 (len - 7) in
    if Nat.ltb idx 9 then Some idx
    else if Nat.even idx then Some 7%nat else Some 8%nat
  else Some 8%nat.

(** [parse_isoformat_date] on the first [len] bytes: [YYYY-MM-DD],
    [YYYYMMDD], [YYYY-Www[-D]] or [YYYYWww[D]]. *)
Definition parse_isoformat_date (s : string) (len : nat)
  : option (Z * Z * Z) :=
  match parse_digits s 0 0 4 with
  | None => None
  | Some (y, p) =>
      let uses_separator := is_char (byte_at s p) "-" in
      let p := if uses_separator then S p else p in
      if is_char (byte_at s p) "W" then
        match parse_digits s (S p) 0 2 with
        | None => None
        | Some (iso_week, p) =>
            if Nat.ltb p len then
              if uses_separator && negb (is_char (byte_at s p) "-")
              then None
              else
                match parse_digits s (if uses_separator then S p else p)
                        0 1 with
                | None => None
                | Some (iso_day, _) => iso_to_ymd y iso_week iso_day
                end
            else iso_to_ymd y iso_week 1
        end
      else
        match parse_digits s p 0 2 with
        | None => None
        | Some (m, p) =>
            if uses_separator && negb (is_char (byte_at s p) "-") then None
            else
              match parse_digits s (if uses_separator then S p else p)
                      0 2 with
              | None => None
              | Some (d, _) => Some (y, m, d)
              end
        end
  end.

(** The loop of [parse_hh_mm_ss_ff] over hour, minute and second, with
    [todo] of them left to read and [vals] read so far.  It returns
    whether something follows ([inl]), or goes on to the fraction at a
    position ([inr]). *)
Fixpoint parse_hh_mm_ss (s : string) (p_end : nat) (todo : nat)
    (first has_separator : bool) (p : nat) (vals : list Z)
  : option (list Z * (bool + nat)) :=
  match todo with
  | O => Some (vals, inr p)
  | S todo' =>
      match parse_digits s p 0 2 with
      | None => None
      | Some (v, p1) =>
          let c := byte_at s p1 in
          let has_separator :=
            if first then is_char c ":" else has_separator in
          let vals := (vals ++ [v])%list in
          if Nat.leb p_end (S p1) then Some (vals, inl (negb (c =? 0)))
          else if has_separator && is_char c ":"
          then parse_hh_mm_ss s p_end todo' false has_separator (S p1) vals
          else if is_char c "." || is_char c ","
          then Some (vals, inr (S p1))
          else if negb has_separator
          then parse_hh_mm_ss s p_end todo' false has_separator p1 vals
          else None
      end
  end.

(** [parse_hh_mm_ss_ff] between [p] and [p_end]: hour, minute, second,
    microsecond and whether the string goes on after what was read. *)
Definition parse_hh_mm_ss_ff (s : string) (p p_end : nat)
  : option (Z * Z * Z * Z * bool) :=
  match parse_hh_mm_ss s p_end 3 true true p [] with
  | None => None
  | Some (vals, next) =>
      let h := nth 0 vals 0 in
      let mi := nth 1 vals 0 in
      let se := nth 2 vals 0 in
      match next with
      | inl more => Some (h, mi, se, 0, more)
      | inr p =>
          let to_parse := Nat.min (p_end - p) 6 in
          match parse_digits s p 0 to_parse with
          | None => None
          | Some (us, p') =>
              let us := us * 10 ^ Z.of_nat (6 - to_parse) in
              let p' := digits_end s p' (String.length s) in
              Some (h, mi, se, us, negb (byte_at s p' =? 0))
          end
      end
  end.

(** The first of [Z], [+] and [-] from [pos] on, looked for up to
    [p_end]. *)
Fixpoint find_tzinfo (s : string) (p_end : nat) (pos : nat) (fuel : nat)
  : nat :=
  match fuel with
  | O => pos
  | S fuel' =>
      let c := byte_at s pos in
      if is_char c "Z" || is_char c "+" || is_char c "-" then pos
      else if Nat.ltb (S pos) p_end then find_tzinfo s p_end (S pos) fuel'
      else S pos
  end.

Definition day_us : Z := 86400 * 1000000.

(** [parse_isoformat_time] from [p] to the end of the string: the time
    of day and the UTC offset in microseconds, if there is one. *)
Definition parse_isoformat_time (s : string) (p : nat)
  : option (Z * Z * Z * Z * option Z) :=
  let p_end := String.length s in
  let tzinfo_pos := find_tzinfo s p_end p (S (p_end - p)) in
  match parse_hh_mm_ss_ff s p tzinfo_pos with
  | None => None
  | Some (h, mi, se, us, more) =>
      if Nat.eqb tzinfo_pos p_end then
        if more then None else Some (h, mi, se, us, None)
      else if is_char (byte_at s tzinfo_pos) "Z" then
        if byte_at s (S tzinfo_pos) =? 0 then Some (h, mi, se, us, Some 0)
        else None
      else
        let tzsign := if is_char (byte_at s tzinfo_pos) "-" then -1 else 1 in
        match parse_hh_mm_ss_ff s (S tzinfo_pos) p_end with
        | Some (tzh, tzm, tzs, tzus, false) =>
            let tzoffset := tzsign * (tzh * 3600 + tzm * 60 + tzs) in
            if tzoffset =? 0 then Some (h, mi, se, us, Some 0)
            else Some (h, mi, se, us,
                       Some (tzoffset * 1000000 + tzsign * tzus))
        | _ => None
        end
  end.

(** The length in bytes of the UTF-8 character that starts with [c]. *)
Definition utf8_length (c : Z) : nat :=
  if Z.land c 128 =? 0 then 1
  else if Z.land c 240 =? 240 then 4
  else if Z.land c 240 =? 224 then 3
  else 2.

(** The range checks of the [datetime] and [timezone] constructors. *)
Definition in_range (y m d h mi se : Z) (tz : option Z) : bool :=
  (1 <=? y) && (y <=? 9999) && (1 <=? m) && (m <=? 12) &&
  (1 <=? d) && (d <=? days_in_month y m) &&
  (h <=? 23) && (mi <=? 59) && (se <=? 59) &&
  match tz with
  | Some off => (- day_us <? off) && (off <? day_us)
  | None => true
  end.

(** [datetime.fromisoformat] on a string, given as its UTF-8 bytes: a
    calendar or week date in basic or extended format, then, after one
    character of any kind, a time of day down to the hour, minute,
    second or a fraction of it, and an offset from UTC or [Z].  The
    fields must be in the ranges the [datetime] constructor accepts. *)
Definition parse (s : string) : option datetime :=
  match find_separator s with
  | None => None
  | Some separator_location =>
      match parse_isoformat_date s separator_location with
      | None => None
      | Some (y, m, d) =>
          if Nat.ltb separator_location (String.length s) then
            let p := (separator_location
                      + utf8_length (byte_at s separator_location))%nat in
            match parse_isoformat_time s p with
            | None => None
            | Some (h, mi, se, us, tz) =>
                if in_range y m d h mi se tz
                then Some (mk_datetime y m d h mi se us tz) else None
            end
          else
            if in_range y m d 0 0 0 None
            then Some (mk_datetime y m d 0 0 0 0 None) else None
      end
  end.

Definition toordinal (t : datetime) : Z :=
  days_before_year (year t) + days_before_month (year t) (month t) + day t.

(** Microseconds of local time since the start of ordinal day 0. *)
Definition local_us (t : datetime) : Z :=
  (((toordinal t * 24 + hour t) * 60 + minute t) * 60 + second t) * 1000000
  + microsecond t.

End Iso.

(** [datetime.fromisoformat(v)]: [TypeError] unless [v] is a string,
    [ValueError] when the parser does not read the string. *)
Definition fromisoformat (v : value) : result datetime :=
  match v with
  | VStr s =>
      match Iso.parse s with
      | Some t => Ok t
      | None => Raise ValueError
      end
  | _ => Raise TypeError
  end.

(** [b - a] for two naive datetimes, in seconds, when it is a whole
    number of seconds. *)
Definition seconds_between (a b : datetime) : option Z :=
  match tzinfo a, tzinfo b with
  | None, None =>
      let us := Iso.local_us b - Iso.local_us a in
      if us mod 1000000 =? 0 then Some (us / 1000000) else None
  | _, _ => None
  end.

(** ** Attribute fields of a series *)

(** What [to_kv] returns: the empty dictionary or a dictionary with one
    entry.  The key is whatever the payload holds under [attrName]. *)
Inductive kv : Type :=
| Empty
| Entry (key value_ : value).

(** Keys of a dictionary must be hashable. *)
Fixpoint hashable (v : value) : bool :=
  match v with
  | VList _ | VDict _ | VModel _ _ => false
  | VTuple l =>
      (fix all (l : list value) : bool :=
         match l with
         | [] => true
         | x :: l' => hashable x && all l'
         end) l
  | _ => true
  end.

(** The entries of a [kv] that have a string key, as a [dict]. *)
Definition str_entries (e : kv) : dict :=
  match e with
  | Entry (VStr k) v => [(k, v)]
  | _ => []
  end.

Definition str_keyed (e : kv) : bool :=
  match e with
  | Entry (VStr _) _ | Empty => true
  | Entry _ _ => false
  end.

(** A synthesized subclass of [EntitySeries]: its name and the fields it
    adds to [index], each with its default value. *)
Record model : Type := mk_model {
  class_name : string;
  defaults : dict
}.

(** The time-indexed series the builder returns: an instance of a
    synthesized class, with the name of the class, the time index and the
    attribute fields as the instance's [dict()] gives them. *)
Record EntitySeries : Type := mk_series {
  model_name : string;
  index : list datetime;
  fields : dict
}.

(** ** pydantic: synthesis of a model class *)

(** [bool(v)]: [None], zero, and the empty string, list, tuple and
    dictionary are false; a model instance is always true. *)
Definition truthy (v : value) : bool :=
  match v with
  | VNone => false
  | VBool b => b
  | VInt z => negb (z =? 0)
  | VFloat f => negb (PrimFloat.eqb f 0%float)
  | VStr s => negb (String.eqb s "")
  | VList l | VTuple l => match l with [] => false | _ :: _ => true end
  | VDict d => match d with [] => false | _ :: _ => true end
  | VModel _ _ => true
  end.

Module Pydantic.

Definition starts_with_underscore (s : string) : bool :=
  match s with
  | String "_" _ => true
  | _ => false
  end.

(** Attributes of [BaseModel] and of [EntitySeries] that a field name
    may not shadow; [mro] and [register] come with the class object
    itself, whose metaclass derives from [ABCMeta]. *)
Definition class_attributes : list string :=
  ["Config"; "dict"; "json"; "parse_obj"; "parse_raw"; "parse_file";
   "from_orm"; "construct"; "copy"; "schema"; "schema_json"; "validate";
   "update_forward_refs"; "from_quantumleap_format"; "mro"; "register"].

Definition shadows (s : string) : bool :=
  existsb (String.eqb s) class_attributes.

(** A name that is no field stays in the namespace and becomes an
    attribute of the new class.  There it may replace something Python
    or pydantic relies on: a special attribute or method (any name that
    starts with two underscores is taken for one) or one of the private
    methods of [BaseModel]. *)
Definition private_methods : list string :=
  ["_abc_impl"; "_calculate_keys"; "_copy_and_set_values";
   "_decompose_class"; "_enforce_dict_if_root"; "_get_value";
   "_init_private_attributes"; "_iter"].

Definition replaces_attribute (s : string) : bool :=
  match s with
  | String "_" (String "_" _) => true
  | _ => existsb (String.eqb s) private_methods
  end.

(** One entry [name: default] of the class namespace:
    - a name starting with an underscore is not a field; pydantic warns
      (fields may not start with an underscore) and ignores it.  Where
      the name replaces an attribute, what comes of it depends on the
      name and on the versions at hand (a method replaced by data, say,
      fails with [TypeError] once it is called); these cases are not
      followed one by one and the class body is given as failing;
    - a name that shadows a class attribute is refused;
    - [index] is the field of the base class, declared [List[datetime]];
      a new default of another type is refused;
    - a default of [None] leaves the field's type unknown;
    - otherwise the field is added with the given default. *)
Definition add_field (acc : dict) (name : string) (default : value)
  : result dict :=
  if starts_with_underscore name
  then (if replaces_attribute name then Raise TypeError else Ok acc)
  else if shadows name then Raise NameError
  else if String.eqb name "index" then Raise TypeError
  else match default with
       | VNone => Raise ConfigError
       | _ => Ok (Dict.set name default acc)
       end.

Fixpoint add_fields (acc : dict) (defs : dict) : result dict :=
  match defs with
  | [] => Ok acc
  | (name, default) :: defs' =>
      acc' <- add_field acc name default ;; add_fields acc' defs'
  end.

(** The class namespace [create_model] builds is a dictionary whose
    keys need not be strings: what [__validators__] brings in is entered
    under the keys it comes with. *)
Definition namespace : Type := list (value * value).

Definition same_key (k k' : value) : bool :=
  match k, k' with
  | VStr s, VStr s' => String.eqb s s'
  | _, _ => false
  end.

(** [ns[k] = v].  Only string keys are looked for: an entry under
    another key makes the class body fail where it stands, whatever
    follows it. *)
Fixpoint ns_set (k v : value) (ns : namespace) : namespace :=
  match ns with
  | [] => [(k, v)]
  | (k', v') :: ns' =>
      if same_key k k' then (k', v) :: ns' else (k', v') :: ns_set k v ns'
  end.

Definition ns_update (ns items : namespace) : namespace :=
  fold_left (fun acc kv => ns_set (fst kv) (snd kv) acc) items ns.

(** [ns.get(k)] for a string [k]. *)
Fixpoint ns_get (k : string) (ns : namespace) : option value :=
  match ns with
  | [] => None
  | (k', v) :: ns' => if same_key (VStr k) k' then Some v else ns_get k ns'
  end.

Definition items (d : dict) : namespace :=
  map (fun kv => (VStr (fst kv), snd kv)) d.

(** What [ns.update(v)] enters for a [v] that is no dictionary: [v] is
    iterated, and each element must be a sequence of two items, a
    hashable key and its value. *)
Fixpoint update_pairs (elements : list value) : result namespace :=
  match elements with
  | [] => Ok []
  | x :: elements' =>
      match iterate x with
      | Raise _ => Raise TypeError
      | Ok [k; v] =>
          if hashable k
          then rest <- update_pairs elements' ;; Ok ((k, v) :: rest)
          else Raise TypeError
      | Ok _ => Raise ValueError
      end
  end.

Definition update_entries (v : value) : result namespace :=
  match v with
  | VDict d => Ok (items d)
  | _ =>
      match iterate v with
      | Raise _ => Raise TypeError
      | Ok elements => update_pairs elements
      end
  end.

(** The body of the class statement: the entries of the namespace in
    their order.  A key that is no string has no [startswith]. *)
Fixpoint class_body (acc : dict) (ns : namespace) : result dict :=
  match ns with
  | [] => Ok acc
  | (VStr name, default) :: ns' =>
      acc' <- add_field acc name default ;; class_body acc' ns'
  | _ :: _ => Raise AttributeError
  end.

(** The keywords of [create_model] that are options of the call and not
    field definitions.  [__base__] and the positional [__model_name] are
    given by the caller already. *)
Definition given : list string := ["__base__"; "__model_name"].

Definition options : list string :=
  ["__config__"; "__module__"; "__validators__"].

Definition is_option (name : string) : bool :=
  existsb (String.eqb name) options.

Definition field_definitions (defs : dict) : dict :=
  filter (fun kv => negb (is_option (fst kv))) defs.

Definition unhashable_module (defs : dict) (when_truthy : bool) : bool :=
  match Dict.get "__module__" defs with
  | Some v => negb (hashable v) && Bool.eqb (truthy v) when_truthy
  | None => false
  end.

(** [create_model(model_name, __base__=EntitySeries, **defs)], with
    [defs] holding decoded JSON values under string keys.
    - A definition named [__base__] or [__model_name] is a second value
      for a parameter that has one.
    - [__config__] may not accompany [__base__].
    - A [__validators__] that is true updates the namespace before the
      field definitions do, so a field definition overrides an entry of
      the same name and keeps that entry's place.
    - A [Config] entry that is true is taken for the model's
      configuration class, and no value here is a class.
    - [__module__] is looked up among the loaded modules: before the
      class body when it is true, after it when it is false.
    The other names go to the class body, as [add_field] has it. *)
Definition create_model (model_name : string) (defs : dict)
  : result model :=
  if existsb (fun name => match Dict.get name defs with
                          | Some _ => true
                          | None => false
                          end) given
  then Raise TypeError
  else
    match Dict.get "__config__" defs with
    | Some VNone | None =>
        injected <- match Dict.get "__validators__" defs with
                    | Some v => if truthy v then update_entries v else Ok []
                    | None => Ok []
                    end ;;
        let ns := ns_update (ns_update [] injected)
                            (items (field_definitions defs)) in
        if match ns_get "Config" ns with
           | Some v => truthy v
           | None => false
           end
        then Raise TypeError
        else if unhashable_module defs true then Raise TypeError
        else
          fs <- class_body [] ns ;;
          if unhashable_module defs false then Raise TypeError
          else Ok (mk_model model_name fs)
    | Some _ => Raise ConfigError
    end.

(** [m(index=tix)]: [tix] already holds [datetime] objects, so validation
    keeps it; the other fields take their defaults. *)
Definition instantiate (m : model) (tix : list datetime) : EntitySeries :=
  mk_series (class_name m) tix (defaults m).

End Pydantic.

(** ** pydantic: declared classes and validation *)

(** The type a field is declared with.  A model class is given by its
    method resolution order (its own name first) and its field
    declarations [(name, (type, default))] in definition order. *)
Inductive ftype : Type :=
| TAny
| TStr
| TFloat
| TOptional (t : ftype)
| TModel (mro : list string) (decls : list (string * (ftype * option value))).

Definition decl : Type := (string * (ftype * option value))%type.

Record pyclass : Type := mk_class {
  mro : list string;
  decls : list decl
}.

(** A field with no default is required unless it is declared [Optional]
    or [Any]. *)
Definition required (d : decl) : bool :=
  match d with
  | (_, (TOptional _, None)) | (_, (TAny, None)) => false
  | (_, (_, None)) => true
  | (_, (_, Some _)) => false
  end.

Definition default_of (d : decl) : value :=
  match d with
  | (_, (_, Some v)) => v
  | (_, (_, None)) => VNone
  end.

(** Errors a validator raises that pydantic collects into the
    [ValidationError] of the model; any other exception leaves the
    constructor as it is. *)
Definition collected (e : exn) : bool :=
  match e with
  | TypeError | ValueError | ValidationError => true
  | _ => false
  end.

(** The constructor of a model class is
    [__init__(__pydantic_self__, **data)]: a keyword named like its
    first parameter is a second value for it.  No class that pydantic
    builds has a field of that name, since field names do not start with
    an underscore; where the declarations [ds] list one all the same,
    the keyword is read as that field's value. *)
Definition binds_self (kwargs : dict) (ds : list decl) : bool :=
  match Dict.get "__pydantic_self__" kwargs with
  | Some _ =>
      negb (existsb (fun d => String.eqb (fst d) "__pydantic_self__") ds)
  | None => false
  end.

Definition isinstance (v : value) (cls : string) : bool :=
  match v with
  | VModel m _ => existsb (String.eqb cls) m
  | _ => false
  end.

(** [dict(v)] followed by the use of the result as keyword arguments, as
    pydantic does with a value that is neither a dictionary nor an instance
    of the model class wanted: [v] must be an iterable of two-element
    iterables with hashable first elements, or pydantic refuses it; the
    first elements must then be strings to serve as keywords. *)
Fixpoint pairs (items : list value) : option (list (value * value)) :=
  match items with
  | [] => Some []
  | x :: items' =>
      match iterate x, pairs items' with
      | Ok [k; w], Some ps => Some ((k, w) :: ps)
      | _, _ => None
      end
  end.

Definition keyword (kw : value * value) : dict :=
  match kw with
  | (VStr k, w) => [(k, w)]
  | _ => []
  end.

Definition is_str (v : value) : bool :=
  match v with
  | VStr _ => true
  | _ => false
  end.

Definition dict_of (v : value) : result dict :=
  match iterate v with
  | Ok items =>
      match pairs items with
      | Some ps =>
          if negb (forallb (fun kw => hashable (fst kw)) ps)
          then Raise ValidationError
          else if forallb (fun kw => is_str (fst kw)) ps
          then Ok (fold_left Dict.update (map keyword ps) [])
          else Raise TypeError
      | None => Raise ValidationError
      end
  | Raise _ => Raise ValidationError
  end.

(** The examples at the end of the file reach none of the builtins; these
    functions stand for them there. *)
Definition no_float : value -> result float := fun _ => Raise ValueError.
Definition no_repr : value -> string := fun _ => "".
Definition no_dumps : value -> string := fun _ => "".

Section Builtins.

(** [float(v)] for an [int], a [bool] or a [str]. *)
Variable py_float : value -> result float.
(** [repr(v)] *)
Variable py_repr : value -> string.
(** [json.dumps(v)] *)
Variable json_dumps : value -> string.

(** [str(v)], also what an f-string substitutes for [{v}]. *)
Definition py_str (v : value) : string :=
  match v with
  | VStr s => s
  | _ => py_repr v
  end.

(** pydantic's [str_validator]: strings pass, numbers are converted with
    [str], anything else is refused. *)
Definition str_validator (v : value) : result value :=
  match v with
  | VStr _ => Ok v
  | VInt _ | VBool _ | VFloat _ => Ok (VStr (py_str v))
  | _ => Raise ValidationError
  end.

(** pydantic's [float_validator]: floats pass, anything else goes through
    [float], which accepts numbers and strings only. *)
Definition float_validator (v : value) : result value :=
  match v with
  | VFloat _ => Ok v
  | VInt _ | VBool _ | VStr _ => f <- py_float v ;; Ok (VFloat f)
  | _ => Raise TypeError
  end.

(** Validation of [v] against a declared type; for a model class, of the
    keyword arguments against its declarations.  A field's failure is
    recorded and validation goes on with the next field; the model raises
    [ValidationError] at the end if any was recorded. *)
Fixpoint validate (t : ftype) (v : value) {struct t} : result value :=
  match t with
  | TAny => Ok v
  | TStr => str_validator v
  | TFloat => float_validator v
  | TOptional t' =>
      match v with
      | VNone => Ok VNone
      | _ => validate t' v
      end
  | TModel m ds =>
      let init (kwargs : dict) :=
        (fix fields_of (ds : list decl) (acc : dict) (failed : bool)
           {struct ds} : result value :=
           match ds with
           | [] =>
               if failed then Raise ValidationError else Ok (VModel m acc)
           | (name, (t', dflt)) :: ds' =>
               match Dict.get name kwargs with
               | Some v' =>
                   match validate t' v' with
                   | Ok w => fields_of ds' (acc ++ [(name, w)])%list failed
                   | Raise e =>
                       if collected e then fields_of ds' acc true
                       else Raise e
                   end
               | None =>
                   if required (name, (t', dflt))
                   then fields_of ds' acc true
                   else fields_of ds'
                          (acc ++ [(name, default_of (name, (t', dflt)))])%list
                          failed
               end
           end) ds [] false in
      let construct (kwargs : dict) :=
        if binds_self kwargs ds then Raise TypeError
        else init kwargs in
      match v with
      | VDict d => construct d
      | _ =>
          if isinstance v (hd "" m) then Ok v
          else match dict_of v with
               | Ok d => construct d
               | Raise e => Raise e
               end
      end
  end.

(** [cls] called with the keyword arguments [kwargs] *)
Definition construct (cls : pyclass) (kwargs : dict) : result value :=
  validate (TModel (mro cls) (decls cls)) (VDict kwargs).

(** [obj.name] *)
Definition getattr (obj : value) (name : string) : result value :=
  match obj with
  | VModel _ fs =>
      match Dict.get name fs with
      | Some v => Ok v
      | None => Raise AttributeError
      end
  | _ => Raise AttributeError
  end.

(** ** ld_urn *)

Definition ld_urn (unique_suffix : string) : string :=
  "urn:ngsi-ld:" ++ unique_suffix.

(** ** Attr, FloatAttr, TextAttr *)

Definition Attr : pyclass :=
  mk_class ["Attr"]
    [("type", (TOptional TStr, None)); ("value", (TAny, None))].

Definition FloatAttr : pyclass :=
  mk_class ["FloatAttr"; "Attr"]
    [("type", (TStr, Some (VStr "Number"))); ("value", (TFloat, None))].

Definition TextAttr : pyclass :=
  mk_class ["TextAttr"; "Attr"]
    [("type", (TStr, Some (VStr "Text"))); ("value", (TStr, None))].

(** [Attr.new], a class method: [cls] is the wrapper class it is called
    on. *)
Definition new (cls : pyclass) (value_ : value) : result (option value) :=
  match value_ with
  | VNone => Ok None
  | _ => a <- construct cls [("value", value_)] ;; Ok (Some a)
  end.

(** ** BaseEntity *)

(** An entity class: [BaseEntity] or a subclass of it.  A subclass fixes
    the literal its [type] field defaults to and declares attribute
    fields after [id] and [type]. *)
Record kind : Type := mk_kind {
  kind_name : string;
  type_literal : option string;
  attributes : list decl
}.

Definition BaseEntity : kind := mk_kind "BaseEntity" None [].

Definition class_of (k : kind) : pyclass :=
  mk_class
    (if String.eqb (kind_name k) "BaseEntity" then ["BaseEntity"]
     else [kind_name k; "BaseEntity"])
    (("id", (TStr, None))
     :: ("type", (TStr, option_map VStr (type_literal k)))
     :: attributes k).

(** [BaseEntity.from_raw], a class method: [k] is the entity class it is
    called on. *)
Definition from_raw (k : kind) (raw_entity : dict) : result (option value) :=
  probe <- construct (class_of k) [("id", VStr "")] ;;
  own_type <- getattr probe "type" ;;
  let etype := Dict.get_default "type" (VStr "") raw_entity in
  if differ own_type etype then Ok None
  else e <- construct (class_of k) raw_entity ;; Ok (Some e).

(** Objects live in a store and are handed around by reference, so that
    an assignment to a field is seen through every reference. *)
Definition ref : Type := nat.
Definition store : Type := ref -> option value.

Definition store_set (h : store) (r : ref) (v : value) : store :=
  fun r' => if Nat.eqb r' r then Some v else h r'.

(** [obj.name = v] on a model instance: only declared fields can be
    assigned. *)
Definition setattr (obj : value) (name : string) (v : value)
  : result value :=
  match obj with
  | VModel m fs =>
      match Dict.get name fs with
      | Some _ => Ok (VModel m (Dict.set name v fs))
      | None => Raise ValueError
      end
  | _ => Raise AttributeError
  end.

(** [BaseEntity.set_id_with_type_prefix]: returns the store after the
    assignment and the reference the method returns. *)
Definition set_id_with_type_prefix (h : store) (self : ref)
    (unique_suffix : string) : result (store * ref) :=
  match h self with
  | Some obj =>
      type_ <- getattr obj "type" ;;
      let own_id := py_str type_ ++ ":" ++ unique_suffix in
      obj' <- setattr obj "id" (VStr (ld_urn own_id)) ;;
      Ok (store_set h self obj', self)
  | None => Raise AttributeError
  end.

(** pydantic's [dict(exclude_none=True)]: a field holding [None] is left
    out, at every level of nested models; the entries of plain
    dictionaries, lists and tuples are kept. *)
Fixpoint export (v : value) : value :=
  match v with
  | VModel _ fs =>
      VDict ((fix fields_of (fs : list (string * value)) : dict :=
                match fs with
                | [] => []
                | (_, VNone) :: fs' => fields_of fs'
                | (k, w) :: fs' => (k, export w) :: fields_of fs'
                end) fs)
  | VDict d =>
      VDict ((fix entries (d : list (string * value)) : dict :=
                match d with
                | [] => []
                | (k, w) :: d' => (k, export w) :: entries d'
                end) d)
  | VList l =>
      VList ((fix items (l : list value) : list value :=
                match l with
                | [] => []
                | w :: l' => export w :: items l'
                end) l)
  | VTuple l =>
      VTuple ((fix items (l : list value) : list value :=
                 match l with
                 | [] => []
                 | w :: l' => export w :: items l'
                 end) l)
  | _ => v
  end.

(** [BaseEntity.to_json] *)
Definition to_json (self : value) : string :=
  json_dumps (export self).

(** ** EntityUpdateNotification *)

Fixpoint not_none {A : Type} (candidates : list (option A)) : list A :=
  match candidates with
  | [] => []
  | Some c :: cs => c :: not_none cs
  | None :: cs => not_none cs
  end.

(** [EntityUpdateNotification.filter_entities]; [data] is the
    notification's [data] field. *)
Definition filter_entities (data : list dict) (entity_class : kind)
  : result (list value) :=
  candidates <- comprehension (from_raw entity_class) data ;;
  Ok (not_none candidates).

(** ** EntitySeries.from_quantumleap_format *)

Definition to_kv (attr_payload : value) : result kv :=
  key <- method_get attr_payload "attrName" (VStr "") ;;
  if eq_str key "" then Ok Empty
  else
    values <- method_get attr_payload "values" (VList []) ;;
    if hashable key then Ok (Entry key values) else Raise TypeError.

(** Passing [attr_fields] as keyword arguments: keywords must be
    strings.  Entries under other keys cannot collide with a string key,
    so the merge is computed on the string-keyed entries. *)
Definition keywords (kvs : list kv) : result dict :=
  if forallb str_keyed kvs
  then Ok (merge_dicts (map str_entries kvs))
  else Raise TypeError.

(** [EntitySeries.from_quantumleap_format], called on [EntitySeries]
    itself.  The statements follow the source in its order, so that the
    exception of the first one that fails is the one raised. *)
Definition from_quantumleap_format (entity_query_result : dict)
  : result EntitySeries :=
  let attributes :=
    Dict.get_default "attributes" (VList []) entity_query_result in
  xs <- iterate attributes ;;
  attr_fields <- comprehension to_kv xs ;;
  let raw_tix := Dict.get_default "index" (VList []) entity_query_result in
  ts <- iterate raw_tix ;;
  tix <- comprehension fromisoformat ts ;;
  let model_name :=
    py_str (Dict.get_default "entityType" (VStr "") entity_query_result)
    ++ "Series" in
  kwargs <- keywords attr_fields ;;
  dynamic_model <- Pydantic.create_model model_name kwargs ;;
  Ok (Pydantic.instantiate dynamic_model tix).

(** ** EntitiesUpsert *)

(** The loop of pydantic's validation of a list over its items: a failing
    item is recorded and the items after it are still validated; the list
    is refused at the end if any item failed. *)
Fixpoint validate_items (t : ftype) (items : list value)
    (acc : list value) (failed : bool) : result value :=
  match items with
  | [] => if failed then Raise ValidationError else Ok (VList acc)
  | x :: items' =>
      match validate t x with
      | Ok w => validate_items t items' (acc ++ [w])%list failed
      | Raise e =>
          if collected e then validate_items t items' acc true
          else Raise e
      end
  end.

(** A field declared [List[t]]: a list or a tuple is validated item by
    item into a list; anything else is refused. *)
Definition list_validator (t : ftype) (v : value) : result value :=
  match v with
  | VList l | VTuple l => validate_items t l [] false
  | _ => Raise ValidationError
  end.

(** [EntitiesUpsert] called with the keyword arguments [kwargs].  Its
    fields are [entities], declared [List[BaseEntity]] and required, and
    then [actionType], a string that defaults to [append]: pydantic puts
    the annotated fields of a class before those without annotation. *)
Definition EntitiesUpsert (kwargs : dict) : result value :=
  let entity :=
    TModel (mro (class_of BaseEntity)) (decls (class_of BaseEntity)) in
  let entities :=
    match Dict.get "entities" kwargs with
    | Some v => list_validator entity v
    | None => Raise ValidationError
    end in
  let actionType :=
    match Dict.get "actionType" kwargs with
    | Some v => str_validator v
    | None => Ok (VStr "append")
    end in
  match entities, actionType with
  | Ok es, Ok a =>
      Ok (VModel ["EntitiesUpsert"] [("entities", es); ("actionType", a)])
  | Ok _, Raise e => if collected e then Raise ValidationError else Raise e
  | Raise e, Ok _ => if collected e then Raise ValidationError else Raise e
  | Raise e, Raise e' =>
      if collected e
      then (if collected e' then Raise ValidationError else Raise e')
      else Raise e
  end.

(** A payload in which every top-level key is present: a key the
    payload lacks is entered with the value the builder assumes for
    it. *)
Definition fill (k : string) (v : value) (d : dict) : dict :=
  match Dict.get k d with
  | Some _ => d
  | None => Dict.set k v d
  end.

Definition explicit (entity_query_result : dict) : dict :=
  fill "entityType" (VStr "")
    (fill "index" (VList [])
       (fill "attributes" (VList []) entity_query_result)).

(** The attribute payload [x] carries the name [n]. *)
Definition named (n : string) (x : value) : bool :=
  match x with
  | VDict d => eq_str (Dict.get_default "attrName" (VStr "") d) n
  | _ => false
  end.

(** ** Example data *)

Definition room_payload : dict :=
  [("entityType", VStr "Room");
   ("index",
    VList [VStr "2020-01-01T00:00:00"; VStr "2020-01-01T01:00:00"]);
   ("attributes",
    VList [VDict [("attrName", VStr "temp");
                  ("values", VList [VInt 10; VInt 12])]])].

Definition midnight : datetime := mk_datetime 2020 1 1 0 0 0 0 None.
Definition one_o_clock : datetime := mk_datetime 2020 1 1 1 0 0 0 None.

(** ** Auxiliary definitions *)

(** The builder with the parser of the index entries left open:
    [from_quantumleap_format] is this function at [fromisoformat]. *)
Definition from_quantumleap_format_with (parse : value -> result datetime)
    (entity_query_result : dict) : result EntitySeries :=
  let attributes :=
    Dict.get_default "attributes" (VList []) entity_query_result in
  xs <- iterate attributes ;;
  attr_fields <- comprehension to_kv xs ;;
  let raw_tix := Dict.get_default "index" (VList []) entity_query_result in
  ts <- iterate raw_tix ;;
  tix <- comprehension parse ts ;;
  let model_name :=
    py_str (Dict.get_default "entityType" (VStr "") entity_query_result)
    ++ "Series" in
  kwargs <- keywords attr_fields ;;
  dynamic_model <- Pydantic.create_model model_name kwargs ;;
  Ok (Pydantic.instantiate dynamic_model tix).

(** What the specification calls a valid ISO-8601 timestamp string,
    read generously: a complete calendar, ordinal or week date in basic
    or extended format, alone or followed by [T] and a time of day
    (hours, with minutes and seconds if wanted, the last of them with a
    decimal fraction if wanted) and, if wanted, [Z] or an offset from
    UTC.  Each function returns the position after what it reads. *)
Definition iso8601_date (s : string) : option nat :=
  match Iso.parse_digits s 0 0 4 with
  | None => None
  | Some (y, p) =>
      let extended := Iso.is_char (Iso.byte_at s p) "-" in
      let p := if extended then S p else p in
      let skip (q : nat) : option nat :=
        if extended
        then (if Iso.is_char (Iso.byte_at s q) "-" then Some (S q) else None)
        else Some q in
      if Iso.is_char (Iso.byte_at s p) "W" then
        match Iso.parse_digits s (S p) 0 2 with
        | None => None
        | Some (w, q) =>
            match skip q with
            | None => None
            | Some q =>
                match Iso.parse_digits s q 0 1 with
                | Some (d, q) =>
                    if (1 <=? w) && (w <=? 53) && (1 <=? d) && (d <=? 7)
                    then Some q else None
                | None => None
                end
            end
        end
      else if Nat.eqb (Iso.digits_end s p 4 - p) 3 then
        match Iso.parse_digits s p 0 3 with
        | Some (d, q) =>
            if (1 <=? d) && (d <=? (if Iso.is_leap y then 366 else 365))
            then Some q else None
        | None => None
        end
      else
        match Iso.parse_digits s p 0 2 with
        | None => None
        | Some (m, q) =>
            match skip q with
            | None => None
            | Some q =>
                match Iso.parse_digits s q 0 2 with
                | Some (d, q) =>
                    if (1 <=? m) && (m <=? 12) && (1 <=? d)
                       && (d <=? Iso.days_in_month y m)
                    then Some q else None
                | None => None
                end
            end
        end
  end.

Definition iso8601_fraction (s : string) (p : nat) : option nat :=
  let c := Iso.byte_at s p in
  if Iso.is_char c "." || Iso.is_char c "," then
    let q := Iso.digits_end s (S p) (String.length s) in
    if Nat.eqb q (S p) then None else Some q
  else Some p.

Definition iso8601_time (s : string) (p : nat) : option nat :=
  match Iso.parse_digits s p 0 2 with
  | None => None
  | Some (h, p) =>
      let extended := Iso.is_char (Iso.byte_at s p) ":" in
      let skip (q : nat) : nat :=
        if Iso.is_char (Iso.byte_at s q) ":" then S q else q in
      match Iso.parse_digits s (skip p) 0 2 with
      | None => if h <=? 24 then iso8601_fraction s p else None
      | Some (mi, p) =>
          match (if extended && negb (Iso.is_char (Iso.byte_at s p) ":")
                 then None else Iso.parse_digits s (skip p) 0 2) with
          | None =>
              if ((h <=? 23) && (mi <=? 59)) || ((h =? 24) && (mi =? 0))
              then iso8601_fraction s p else None
          | Some (se, p) =>
              if ((h <=? 23) && (mi <=? 59) && (se <=? 60))
                 || ((h =? 24) && (mi =? 0) && (se =? 0))
              then iso8601_fraction s p else None
          end
      end
  end.

Definition iso8601_zone (s : string) (p : nat) : option nat :=
  let c := Iso.byte_at s p in
  if Iso.is_char c "Z" then Some (S p)
  else if Iso.is_char c "+" || Iso.is_char c "-" then
    match Iso.parse_digits s (S p) 0 2 with
    | None => None
    | Some (h, p) =>
        let q := if Iso.is_char (Iso.byte_at s p) ":" then S p else p in
        match Iso.parse_digits s q 0 2 with
        | Some (mi, q) =>
            if (h <=? 23) && (mi <=? 59) then Some q else None
        | None => if h <=? 23 then Some p else None
        end
    end
  else Some p.

Definition iso8601 (s : string) : bool :=
  match iso8601_date s with
  | None => false
  | Some p =>
      if Nat.eqb p (String.length s) then true
      else if Iso.is_char (Iso.byte_at s p) "T" then
        match iso8601_time s (S p) with
        | None => false
        | Some p =>
            match iso8601_zone s p with
            | Some p => Nat.eqb p (String.length s)
            | None => false
            end
        end
      else false
  end.

(** The entries of a class namespace that stand under a string. *)
Fixpoint named_entries (ns : Pydantic.namespace) : dict :=
  match ns with
  | [] => []
  | (VStr name, v) :: ns' => (name, v) :: named_entries ns'
  | _ :: ns' => named_entries ns'
  end.

(** [merge_dicts] continued from the dictionary [acc]. *)
Definition merge_from (acc : dict) (kvs : list kv) : dict :=
  fold_left Dict.update (map str_entries kvs) acc.

(** No entry of [kvs] is stored under the string [n]. *)
Definition absent (n : string) (kvs : list kv) : Prop :=
  Forall (fun e => forall v, e <> Entry (VStr n) v) kvs.

(** The loop of [validate] over the declarations [ds] of a model class,
    given the fields validated so far and whether one has failed. *)
Fixpoint validate_fields (m : list string) (kwargs : dict)
    (ds : list decl) (acc : dict) (failed : bool) : result value :=
  match ds with
  | [] => if failed then Raise ValidationError else Ok (VModel m acc)
  | (name, (t', dflt)) :: ds' =>
      match Dict.get name kwargs with
      | Some v' =>
          match validate t' v' with
          | Ok w =>
              validate_fields m kwargs ds' (acc ++ [(name, w)])%list failed
          | Raise e =>
              if collected e then validate_fields m kwargs ds' acc true
              else Raise e
          end
      | None =>
          if required (name, (t', dflt))
          then validate_fields m kwargs ds' acc true
          else validate_fields m kwargs ds'
                 (acc ++ [(name, default_of (name, (t', dflt)))])%list
                 failed
      end
  end.

(** A model class called with the keyword arguments [kwargs]. *)
Definition validate_kwargs (m : list string) (kwargs : dict)
    (ds : list decl) : result value :=
  if binds_self kwargs ds then Raise TypeError
  else validate_fields m kwargs ds [] false.

(** The loop of [export] over the fields of a model instance. *)
Fixpoint export_fields (fs : dict) : dict :=
  match fs with
  | [] => []
  | (_, VNone) :: fs' => export_fields fs'
  | (k, w) :: fs' => (k, export w) :: export_fields fs'
  end.

(** Values that [export] leaves as they are. *)
Definition primitive (v : value) : bool :=
  match v with
  | VBool _ | VInt _ | VFloat _ | VStr _ => true
  | _ => false
  end.

(** [v is None] *)
Definition is_none (v : value) : bool :=
  match v with
  | VNone => true
  | _ => false
  end.

(** Plain data: no model instance at any depth. *)
Fixpoint plain (v : value) : bool :=
  match v with
  | VModel _ _ => false
  | VList l | VTuple l =>
      (fix all (l : list value) : bool :=
         match l with
         | [] => true
         | w :: l' => plain w && all l'
         end) l
  | VDict d =>
      (fix all (d : list (string * value)) : bool :=
         match d with
         | [] => true
         | (_, w) :: d' => plain w && all d'
         end) d
  | _ => true
  end.

(** The field [nv] of an entity is as the declaration [d] of an optional
    [FloatAttr] or [TextAttr] makes it: unset, or a wrapper of that class
    holding a float or a string. *)
Inductive field_fits : decl -> string * value -> Prop :=
| fits_unset (name : string) (t : ftype) :
    field_fits (name, (TOptional t, None)) (name, VNone)
| fits_float (name tag : string) (f : float) :
    field_fits
      (name, (TOptional (TModel (mro FloatAttr) (decls FloatAttr)), None))
      (name, VModel (mro FloatAttr)
               [("type", VStr tag); ("value", VFloat f)])
| fits_text (name tag s : string) :
    field_fits
      (name, (TOptional (TModel (mro TextAttr) (decls TextAttr)), None))
      (name, VModel (mro TextAttr)
               [("type", VStr tag); ("value", VStr s)]).

(** Every attribute field of [k] is optional or has a default, and none
    redeclares [id]: the class can be instantiated from an [id] alone. *)
Definition defaulted (k : kind) : bool :=
  forallb (fun d => negb (required d) && negb (String.eqb (fst d) "id"))
    (attributes k).

(** The record's [type] is the literal [t]. *)
Definition has_type (t : string) (raw_entity : dict) : bool :=
  eq_str (Dict.get_default "type" (VStr "") raw_entity) t.

(** An entity class with a required attribute, one without attributes,
    and an entity of type [Sensor] in a store. *)
Definition Sensor : kind :=
  mk_kind "Sensor" (Some "Sensor")
    [("temp", (TModel (mro FloatAttr) (decls FloatAttr), None))].

Definition Bot : kind := mk_kind "Bot" (Some "Bot") [].

Definition sensor : value :=
  VModel ["Sensor"; "BaseEntity"]
    [("id", VStr "1"); ("type", VStr "Sensor");
     ("temp", VModel ["FloatAttr"; "Attr"]
                [("type", VStr "Number"); ("value", VFloat 21.5)]);
     ("room", VNone)].

Definition sensor_store : store :=
  fun r => if Nat.eqb r 7 then Some sensor else None.

(** An entity class with optional attributes and the attribute fields of
    one of its entities. *)
Definition Robot : kind :=
  mk_kind "Robot" (Some "Robot")
    [("speed", (TOptional (TModel (mro FloatAttr) (decls FloatAttr)), None));
     ("name", (TOptional (TModel (mro TextAttr) (decls TextAttr)), None));
     ("load", (TOptional (TModel (mro FloatAttr) (decls FloatAttr)), None))].

Definition robot_fields : dict :=
  [("speed", VModel (mro FloatAttr)
               [("type", VStr "Number"); ("value", VFloat 1.5)]);
   ("name", VModel (mro TextAttr)
              [("type", VStr "Text"); ("value", VStr "r2")]);
   ("load", VNone)].

Definition robot : value :=
  VModel (mro (class_of Robot))
    (("id", VStr "r2") :: ("type", VStr "Robot") :: robot_fields).

(** A batch with a record of another type. *)
Definition bot_batch : list dict :=
  [[("id", VStr "r1"); ("type", VStr "Room")];
   [("id", VStr "b1"); ("type", VStr "Bot"); ("speed", VInt 3)]].

Definition bot_b1 : value :=
  VModel ["Bot"; "BaseEntity"] [("id", VStr "b1"); ("type", VStr "Bot")].

(** The series of the Room payload. *)
Definition room_series_value : EntitySeries :=
  mk_series "RoomSeries" [midnight; one_o_clock]
    [("temp", VList [VInt 10; VInt 12])].

(** Two attributes named [temp]. *)
Definition twice_temp_payload : dict :=
  [("attributes",
    VList [VDict [("attrName", VStr "temp");
                  ("values", VList [VInt 1; VInt 2])];
           VDict [("attrName", VStr "temp");
                  ("values", VList [VInt 3; VInt 4])]])].

(** Two attributes that share a name starting with an underscore. *)
Definition underscore_payload : dict :=
  [("attributes",
    VList [VDict [("attrName", VStr "_t"); ("values", VList [VInt 1])];
           VDict [("attrName", VStr "_t"); ("values", VList [VInt 2])]])].

(** ** The parser on a few timestamps *)

Example parse_date_only :
  Iso.parse "2020-02-29" = Some (mk_datetime 2020 2 29 0 0 0 0 None).
Proof. reflexivity. Qed.

Example parse_fraction_and_offset :
  Iso.parse "2021-12-31 23:59:59.250+01:00"
  = Some (mk_datetime 2021 12 31 23 59 59 250000 (Some 3600000000)).
Proof. reflexivity. Qed.

Example parse_rejects :
  Iso.parse "yesterday" = None /\
  Iso.parse "2021-02-29" = None /\
  Iso.parse "2020-01-01T24:00:00" = None /\
  Iso.parse "2020-1-1" = None.
Proof. repeat split; reflexivity. Qed.

Example parse_beyond_isoformat :
  Iso.parse "2020-01-01T00:00:00Z"
  = Some (mk_datetime 2020 1 1 0 0 0 0 (Some 0)) /\
  Iso.parse "20200101" = Some (mk_datetime 2020 1 1 0 0 0 0 None) /\
  Iso.parse "2020-01-01T12.123"
  = Some (mk_datetime 2020 1 1 12 0 0 123000 None) /\
  Iso.parse "2020-W01-1" = Some (mk_datetime 2019 12 30 0 0 0 0 None) /\
  Iso.parse "2020-01-01X00:00:00"
  = Some (mk_datetime 2020 1 1 0 0 0 0 None).
Proof. repeat split; reflexivity. Qed.

Example fromisoformat_needs_a_string :
  fromisoformat (VInt 1577836800) = Raise TypeError.
Proof. reflexivity. Qed.

(** ** Dictionaries: lookup after update *)

Lemma get_set (k k' : string) (v : value) (d : dict) :
  Dict.get k (Dict.set k' v d) =
  if String.eqb k k' then Some v else Dict.get k d.
Proof.
  induction d as [|[k0 v0] d IH]; simpl.
  - destruct (String.eqb k k'); reflexivity.
  - destruct (String.eqb_spec k' k0) as [->|Hne]; simpl.
    + destruct (String.eqb k k0); reflexivity.
    + rewrite IH.
      destruct (String.eqb_spec k k0) as [->|Hne']; [|reflexivity].
      destruct (String.eqb_spec k0 k') as [E|_]; [|reflexivity].
      congruence.
Qed.

Lemma get_default_set (k k' : string) (v dflt : value) (d : dict) :
  Dict.get_default k dflt (Dict.set k' v d) =
  if String.eqb k k' then v else Dict.get_default k dflt d.
Proof.
  unfold Dict.get_default. rewrite get_set.
  destruct (String.eqb k k'); reflexivity.
Qed.

Lemma get_default_fill (k k' : string) (v dflt : value) (d : dict) :
  (k = k' -> v = dflt) ->
  Dict.get_default k dflt (fill k' v d) = Dict.get_default k dflt d.
Proof.
  intros Hsame. unfold fill.
  destruct (Dict.get k' d) eqn:Hk'; [reflexivity|].
  rewrite get_default_set.
  destruct (String.eqb_spec k k') as [->|_]; [|reflexivity].
  unfold Dict.get_default. rewrite Hk'. auto.
Qed.

Lemma keys_set_in (k k' : string) (v : value) (d : dict) :
  In k (Dict.keys (Dict.set k' v d)) -> k = k' \/ In k (Dict.keys d).
Proof.
  induction d as [|[k0 v0] d IH]; simpl.
  - intros [<-|[]]. now left.
  - destruct (String.eqb_spec k' k0) as [->|Hne]; simpl.
    + intros [<-|H]; auto.
    + intros [<-|H]; auto. destruct (IH H); auto.
Qed.

Lemma NoDup_keys_set (k : string) (v : value) (d : dict) :
  NoDup (Dict.keys d) -> NoDup (Dict.keys (Dict.set k v d)).
Proof.
  induction d as [|[k0 v0] d IH]; simpl; intros Hnd.
  - constructor; [intros []|constructor].
  - inversion Hnd as [|? ? Hnotin Hnd']; subst.
    destruct (String.eqb_spec k k0) as [->|Hne]; simpl.
    + constructor; assumption.
    + constructor; [|auto].
      intros Hin. destruct (keys_set_in _ _ _ _ Hin); congruence.
Qed.

Lemma get_None_not_in (k : string) (d : dict) :
  ~ In k (Dict.keys d) -> Dict.get k d = None.
Proof.
  induction d as [|[k0 v0] d IH]; simpl; [reflexivity|].
  intros Hnotin.
  destruct (String.eqb_spec k k0) as [->|_]; [elim Hnotin; now left|].
  apply IH. intros Hin. apply Hnotin. now right.
Qed.

Lemma count_not_in (k : string) (d : dict) :
  ~ In k (Dict.keys d) -> Dict.count k d = O.
Proof.
  unfold Dict.count.
  induction d as [|[k0 v0] d IH]; simpl; [reflexivity|].
  intros Hnotin.
  destruct (String.eqb_spec k k0) as [->|_]; [elim Hnotin; now left|].
  apply IH. intros Hin. apply Hnotin. now right.
Qed.

Lemma get_Some_in (k : string) (v : value) (d : dict) :
  Dict.get k d = Some v -> In k (Dict.keys d).
Proof.
  induction d as [|[k0 v0] d IH]; simpl; [discriminate|].
  destruct (String.eqb_spec k k0) as [->|_]; auto.
Qed.

Lemma count_unique (k : string) (v : value) (d : dict) :
  NoDup (Dict.keys d) -> Dict.get k d = Some v -> Dict.count k d = 1%nat.
Proof.
  induction d as [|[k0 v0] d IH]; simpl; [discriminate|].
  intros Hnd Hget. inversion Hnd as [|? ? Hnotin Hnd']; subst.
  unfold Dict.count in *. simpl.
  destruct (String.eqb_spec k k0) as [->|Hne]; simpl.
  - f_equal. now apply count_not_in.
  - now apply IH.
Qed.

(** ** Comprehensions *)

Lemma comprehension_app {A B : Type} (f : A -> result B) (l1 l2 : list A) :
  comprehension f (l1 ++ l2)%list =
  (ys1 <- comprehension f l1 ;;
   ys2 <- comprehension f l2 ;; Ok (ys1 ++ ys2)%list).
Proof.
  induction l1 as [|x l1 IH]; simpl.
  - destruct (comprehension f l2); reflexivity.
  - destruct (f x); simpl; [|reflexivity].
    rewrite IH. destruct (comprehension f l1); simpl; [|reflexivity].
    destruct (comprehension f l2); reflexivity.
Qed.

Lemma comprehension_raises {A B : Type} (f : A -> result B) (l : list A)
    (x : A) :
  In x l -> (forall y, f x <> Ok y) ->
  exists e, comprehension f l = Raise e.
Proof.
  intros Hin Hx. induction l as [|x0 l IH]; [destruct Hin|].
  simpl. destruct (f x0) as [y0|e0] eqn:Hx0; simpl; [|eauto].
  destruct Hin as [->|Hin]; [now elim (Hx y0)|].
  destruct (IH Hin) as [e ->]. simpl. eauto.
Qed.

Lemma comprehension_Forall2 {A B : Type} (f : A -> result B) (l : list A)
    (ys : list B) :
  comprehension f l = Ok ys -> Forall2 (fun x y => f x = Ok y) l ys.
Proof.
  revert ys. induction l as [|x l IH]; simpl; intros ys H.
  - injection H as <-. constructor.
  - destruct (f x) as [y|] eqn:Hx; simpl in H; [|discriminate].
    destruct (comprehension f l) as [ys'|]; simpl in H; [|discriminate].
    injection H as <-. constructor; auto.
Qed.

(** ** merge_dicts: the last entry of a name wins *)

Lemma merge_from_app (acc : dict) (k1 k2 : list kv) :
  merge_from acc (k1 ++ k2)%list = merge_from (merge_from acc k1) k2.
Proof. unfold merge_from. rewrite map_app, fold_left_app. reflexivity. Qed.

Lemma update_str_entries_NoDup (acc : dict) (e : kv) :
  NoDup (Dict.keys acc) -> NoDup (Dict.keys (Dict.update acc (str_entries e))).
Proof.
  intros Hnd. destruct e as [|[] v]; simpl; auto.
  now apply NoDup_keys_set.
Qed.

Lemma merge_from_NoDup (kvs : list kv) (acc : dict) :
  NoDup (Dict.keys acc) -> NoDup (Dict.keys (merge_from acc kvs)).
Proof.
  revert acc. induction kvs as [|e kvs IH]; intros acc Hnd; [exact Hnd|].
  apply (IH (Dict.update acc (str_entries e))).
  now apply update_str_entries_NoDup.
Qed.

Lemma merge_from_absent (n : string) (kvs : list kv) (acc : dict) :
  absent n kvs -> Dict.get n (merge_from acc kvs) = Dict.get n acc.
Proof.
  intros Habs. revert acc.
  induction Habs as [|e kvs He _ IH]; intros acc; [reflexivity|].
  change (merge_from acc (e :: kvs))
    with (merge_from (Dict.update acc (str_entries e)) kvs).
  rewrite IH. destruct e as [|[] v]; simpl; try reflexivity.
  rewrite get_set. destruct (String.eqb_spec n s) as [->|_]; [|reflexivity].
  now elim (He v).
Qed.

Lemma merge_last_wins (n : string) (v : value) (k1 k3 : list kv) :
  absent n k3 ->
  Dict.get n (merge_dicts (map str_entries (k1 ++ Entry (VStr n) v :: k3)))
  = Some v.
Proof.
  intros Habs.
  change (Dict.get n (merge_from [] (k1 ++ [Entry (VStr n) v] ++ k3)%list)
          = Some v).
  rewrite 2 merge_from_app, (merge_from_absent n k3 _ Habs).
  unfold merge_from at 1. simpl. unfold Dict.update. simpl.
  rewrite get_set, String.eqb_refl. reflexivity.
Qed.

(** ** create_model: which definitions become fields *)

Example create_model_refuses :
  Pydantic.create_model "Series" [("Config", VList [VInt 1])]
  = Raise TypeError /\
  Pydantic.create_model "Series" [("Config", VList [])] = Raise NameError /\
  Pydantic.create_model "Series" [("mro", VList [VInt 1])]
  = Raise NameError /\
  Pydantic.create_model "Series" [("register", VList [VInt 1])]
  = Raise NameError /\
  Pydantic.create_model "Series" [("__validators__", VList [VInt 1])]
  = Raise TypeError /\
  Pydantic.create_model "Series" [("__config__", VList [VInt 1])]
  = Raise ConfigError.
Proof. repeat split; reflexivity. Qed.

Example create_model_ignores :
  Pydantic.create_model "Series"
    [("_t", VList [VInt 2]); ("temp", VList [VInt 1]);
     ("__validators__", VList [])]
  = Ok (mk_model "Series" [("temp", VList [VInt 1])]).
Proof. reflexivity. Qed.

Lemma add_field_NoDup (acc acc' : dict) (name : string) (v : value) :
  Pydantic.add_field acc name v = Ok acc' ->
  NoDup (Dict.keys acc) -> NoDup (Dict.keys acc').
Proof.
  unfold Pydantic.add_field. intros H Hnd.
  destruct (Pydantic.starts_with_underscore name);
    [destruct (Pydantic.replaces_attribute name); congruence|].
  destruct (Pydantic.shadows name); [discriminate|].
  destruct (String.eqb name "index"); [discriminate|].
  destruct v; try discriminate; injection H as <-;
    now apply NoDup_keys_set.
Qed.

Lemma add_fields_NoDup (defs acc r : dict) :
  Pydantic.add_fields acc defs = Ok r ->
  NoDup (Dict.keys acc) -> NoDup (Dict.keys r).
Proof.
  revert acc. induction defs as [|[k v] defs IH]; simpl; intros acc H Hnd.
  - congruence.
  - destruct (Pydantic.add_field acc k v) as [acc'|] eqn:Hk; simpl in H;
      [|discriminate].
    eauto using add_field_NoDup.
Qed.

Lemma add_field_get (acc acc' : dict) (k n : string) (v : value) :
  Pydantic.add_field acc k v = Ok acc' ->
  Pydantic.starts_with_underscore n = false ->
  Dict.get n acc' = if String.eqb n k then Some v else Dict.get n acc.
Proof.
  unfold Pydantic.add_field. intros H Hn.
  destruct (Pydantic.starts_with_underscore k) eqn:Hk.
  - destruct (Pydantic.replaces_attribute k); [discriminate|].
    injection H as <-.
    destruct (String.eqb_spec n k) as [->|_]; congruence.
  - destruct (Pydantic.shadows k); [discriminate|].
    destruct (String.eqb k "index"); [discriminate|].
    destruct v; try discriminate; injection H as <-; apply get_set.
Qed.

Lemma add_fields_get (defs acc r : dict) (n : string) :
  NoDup (Dict.keys defs) ->
  Pydantic.add_fields acc defs = Ok r ->
  Pydantic.starts_with_underscore n = false ->
  Dict.get n r =
  match Dict.get n defs with
  | Some v => Some v
  | None => Dict.get n acc
  end.
Proof.
  revert acc.
  induction defs as [|[k v] defs IH]; simpl; intros acc Hnd H Hn.
  - congruence.
  - inversion Hnd as [|? ? Hnotin Hnd']; subst.
    destruct (Pydantic.add_field acc k v) as [acc'|] eqn:Hk; simpl in H;
      [|discriminate].
    rewrite (IH acc' Hnd' H Hn), (add_field_get acc acc' k n v Hk Hn).
    destruct (String.eqb_spec n k) as [->|_]; [|reflexivity].
    now rewrite (get_None_not_in k defs Hnotin).
Qed.

(** ** The series builder *)

Lemma to_kv_unnamed (d : dict) :
  Dict.get "attrName" d = None \/ Dict.get "attrName" d = Some (VStr "") ->
  to_kv (VDict d) = Ok Empty.
Proof.
  unfold to_kv, method_get, Dict.get_default.
  intros [-> | ->]; reflexivity.
Qed.

Lemma to_kv_named (n : string) (d : dict) :
  n <> "" -> Dict.get "attrName" d = Some (VStr n) ->
  to_kv (VDict d)
  = Ok (Entry (VStr n) (Dict.get_default "values" (VList []) d)).
Proof.
  intros Hn Hd. unfold to_kv, method_get. simpl.
  replace (Dict.get_default "attrName" (VStr "") d) with (VStr n)
    by (unfold Dict.get_default; now rewrite Hd).
  simpl.
  destruct (String.eqb_spec n "") as [E|_]; [contradiction|reflexivity].
Qed.

Lemma to_kv_entry_named (n : string) (x v : value) :
  to_kv x = Ok (Entry (VStr n) v) -> named n x = true.
Proof.
  destruct x; try discriminate.
  unfold to_kv, method_get, named. simpl.
  destruct (eq_str (Dict.get_default "attrName" (VStr "") d) "");
    [discriminate|].
  destruct (hashable (Dict.get_default "attrName" (VStr "") d));
    [|discriminate].
  intros H. injection H as -> _. simpl. apply String.eqb_refl.
Qed.

Lemma keywords_skip_empty (k1 k2 : list kv) :
  keywords (k1 ++ Empty :: k2) = keywords (k1 ++ k2).
Proof.
  unfold keywords, merge_dicts.
  rewrite !forallb_app, !map_app, !fold_left_app. reflexivity.
Qed.

(** C1: for the Room payload of the specification the builder returns a
    series whose index has length 2 and holds the two parsed timestamps,
    one hour apart, and whose field [temp] is [[10, 12]]. *)
Theorem room_series :
  exists s,
    from_quantumleap_format room_payload = Ok s /\
    List.length (index s) = 2%nat /\
    index s = [midnight; one_o_clock] /\
    fromisoformat (VStr "2020-01-01T00:00:00") = Ok midnight /\
    fromisoformat (VStr "2020-01-01T01:00:00") = Ok one_o_clock /\
    seconds_between midnight one_o_clock = Some 3600 /\
    Dict.get "temp" (fields s) = Some (VList [VInt 10; VInt 12]) /\
    Dict.keys (fields s) = ["temp"] /\
    model_name s = "RoomSeries".
Proof.
  eexists. split; [reflexivity|].
  repeat split; reflexivity.
Qed.

(** C2, as amended: the builder parses each index entry with
    [datetime.fromisoformat] and catches nothing.  So whatever that
    parser accepts, if it rejects some entry of the index sequence the
    builder raises and returns no series, however many other entries
    parse. *)
Theorem rejected_timestamp_is_fatal (parse : value -> result datetime)
    (p : dict) (ts : list value) (t : value) :
  iterate (Dict.get_default "index" (VList []) p) = Ok ts ->
  In t ts ->
  (forall d, parse t <> Ok d) ->
  (forall q,
     from_quantumleap_format q = from_quantumleap_format_with fromisoformat q)
  /\ (exists e, from_quantumleap_format_with parse p = Raise e)
  /\ (forall s, from_quantumleap_format_with parse p <> Ok s).
Proof.
  intros Hts Hin Hbad. split; [reflexivity|].
  assert (Hraise : exists e, from_quantumleap_format_with parse p = Raise e).
  { unfold from_quantumleap_format_with.
    destruct (iterate (Dict.get_default "attributes" (VList []) p))
      as [xs|]; simpl; [|eauto].
    destruct (comprehension to_kv xs); simpl; [|eauto].
    rewrite Hts. simpl.
    destruct (comprehension_raises parse ts t Hin Hbad) as [e ->].
    simpl. eauto. }
  split; [exact Hraise|].
  destruct Hraise as [e ->]. discriminate.
Qed.

(** C3: an attribute element whose [attrName] is absent or empty adds no
    field and no error: with such an element inserted anywhere among the
    attributes the builder returns what it returns without it. *)
Theorem unnamed_attribute_is_dropped (p : dict) (l1 l2 : list value)
    (d : dict) :
  Dict.get_default "attributes" (VList []) p = VList (l1 ++ l2) ->
  Dict.get "attrName" d = None \/ Dict.get "attrName" d = Some (VStr "") ->
  from_quantumleap_format
    (Dict.set "attributes" (VList (l1 ++ VDict d :: l2)) p)
  = from_quantumleap_format p.
Proof.
  intros Hattrs Hd. unfold from_quantumleap_format.
  rewrite !get_default_set, Hattrs. simpl.
  rewrite !comprehension_app. simpl.
  rewrite (to_kv_unnamed d Hd). simpl.
  destruct (comprehension to_kv l1) as [k1|]; simpl; [|reflexivity].
  destruct (comprehension to_kv l2) as [k2|]; simpl; [|reflexivity].
  rewrite keywords_skip_empty. reflexivity.
Qed.

Lemma absent_of_unnamed (n : string) (l : list value) (kvs : list kv) :
  forallb (fun x => negb (named n x)) l = true ->
  comprehension to_kv l = Ok kvs -> absent n kvs.
Proof.
  intros Hl Hk. apply comprehension_Forall2 in Hk. revert Hl.
  induction Hk as [|x e l kvs Hx _ IH]; intros Hl; [constructor|].
  simpl in Hl. apply andb_true_iff in Hl as [Hx' Hl].
  constructor; [|exact (IH Hl)].
  intros v ->. apply to_kv_entry_named in Hx.
  rewrite Hx in Hx'. discriminate.
Qed.

Lemma class_body_named (ns : Pydantic.namespace) (acc r : dict) :
  Pydantic.class_body acc ns = Ok r ->
  Pydantic.add_fields acc (named_entries ns) = Ok r.
Proof.
  revert acc. induction ns as [|[k v] ns IH]; intros acc;
    cbn [Pydantic.class_body named_entries Pydantic.add_fields]; [auto|].
  destruct k; try discriminate.
  cbn [Pydantic.class_body named_entries Pydantic.add_fields].
  destruct (Pydantic.add_field acc s v) as [acc'|]; cbn [bind];
    [|discriminate].
  apply IH.
Qed.

Lemma named_entries_set (k v : value) (ns : Pydantic.namespace) :
  named_entries (Pydantic.ns_set k v ns)
  = match k with
    | VStr name => Dict.set name v (named_entries ns)
    | _ => named_entries ns
    end.
Proof.
  induction ns as [|[k' v'] ns IH]; simpl.
  - destruct k; reflexivity.
  - destruct k; simpl in *; try (destruct k'; simpl; now rewrite ?IH).
    destruct k'; simpl; try now rewrite IH.
    destruct (String.eqb s s0); simpl; [reflexivity|now rewrite IH].
Qed.

Lemma named_entries_update (l ns : Pydantic.namespace) :
  named_entries (Pydantic.ns_update ns l)
  = Dict.update (named_entries ns) (named_entries l).
Proof.
  unfold Pydantic.ns_update, Dict.update. revert ns.
  induction l as [|[k v] l IH]; intros ns; simpl; [reflexivity|].
  rewrite IH, named_entries_set. destruct k; reflexivity.
Qed.

Lemma named_entries_items (d : dict) :
  named_entries (Pydantic.items d) = d.
Proof.
  induction d as [|[k v] d IH]; simpl; [reflexivity|now rewrite IH].
Qed.

Lemma NoDup_keys_update (e d : dict) :
  NoDup (Dict.keys d) -> NoDup (Dict.keys (Dict.update d e)).
Proof.
  unfold Dict.update. revert d.
  induction e as [|[k v] e IH]; intros d Hnd; simpl; [exact Hnd|].
  apply IH. now apply NoDup_keys_set.
Qed.

Lemma get_update (e d : dict) (n : string) (v : value) :
  NoDup (Dict.keys e) -> Dict.get n e = Some v ->
  Dict.get n (Dict.update d e) = Some v.
Proof.
  unfold Dict.update. revert d.
  induction e as [|[k w] e IH]; intros d Hnd; simpl; [discriminate|].
  inversion Hnd as [|? ? Hnotin Hnd']; subst.
  destruct (String.eqb_spec n k) as [->|Hne]; intros Hget.
  - injection Hget as ->.
    assert (Hkeep : forall e' d', ~ In k (Dict.keys e') ->
              Dict.get k d' = Some v ->
              Dict.get k (fold_left
                            (fun acc kv => Dict.set (fst kv) (snd kv) acc)
                            e' d') = Some v).
    { clear. induction e' as [|[k' w'] e' IH']; intros d' Hnotin Hd';
        simpl; [exact Hd'|].
      apply IH'; [intros Hin; apply Hnotin; now right|].
      rewrite get_set.
      destruct (String.eqb_spec k k') as [->|_]; [|exact Hd'].
      elim Hnotin. now left. }
    apply Hkeep; [exact Hnotin|].
    rewrite get_set, String.eqb_refl. reflexivity.
  - now apply IH.
Qed.

Lemma is_option_underscore (n : string) :
  Pydantic.starts_with_underscore n = false -> Pydantic.is_option n = false.
Proof.
  intros Hu. unfold Pydantic.is_option, Pydantic.options. simpl.
  repeat match goal with
         | |- context [String.eqb n ?s] =>
             destruct (String.eqb_spec n s) as [E|_];
             [rewrite E in Hu; discriminate|]
         end.
  reflexivity.
Qed.

Lemma get_field_definitions (n : string) (defs : dict) :
  Pydantic.is_option n = false ->
  Dict.get n (Pydantic.field_definitions defs) = Dict.get n defs.
Proof.
  intros Hn. unfold Pydantic.field_definitions.
  induction defs as [|[k v] defs IH]; simpl; [reflexivity|].
  destruct (Pydantic.is_option k) eqn:Hk; simpl.
  - destruct (String.eqb_spec n k) as [->|_]; [congruence|exact IH].
  - now rewrite IH.
Qed.

Lemma keys_field_definitions (n : string) (defs : dict) :
  In n (Dict.keys (Pydantic.field_definitions defs)) ->
  In n (Dict.keys defs).
Proof.
  unfold Pydantic.field_definitions.
  induction defs as [|[k v] defs IH]; simpl; [auto|].
  destruct (Pydantic.is_option k); simpl; [auto|].
  intros [<-|H]; auto.
Qed.

Lemma NoDup_field_definitions (defs : dict) :
  NoDup (Dict.keys defs) ->
  NoDup (Dict.keys (Pydantic.field_definitions defs)).
Proof.
  induction defs as [|[k v] defs IH]; simpl; intros Hnd; [constructor|].
  inversion Hnd as [|? ? Hnotin Hnd']; subst.
  unfold Pydantic.field_definitions in *. simpl.
  destruct (Pydantic.is_option k); simpl; [auto|].
  constructor; [|auto].
  intros Hin. apply Hnotin.
  now apply (keys_field_definitions k defs).
Qed.

(** The fields of a synthesized class are those the class body adds for
    a namespace with distinct names, in which every definition that is
    no option of [create_model] stands with its value. *)
Lemma create_model_fields (name : string) (defs : dict) (m : model) :
  Pydantic.create_model name defs = Ok m ->
  NoDup (Dict.keys defs) ->
  exists ns : dict,
    Pydantic.add_fields [] ns = Ok (defaults m) /\
    NoDup (Dict.keys ns) /\
    forall n v, Pydantic.is_option n = false ->
                Dict.get n defs = Some v -> Dict.get n ns = Some v.
Proof.
  unfold Pydantic.create_model. intros H Hnd.
  destruct (existsb _ Pydantic.given); [discriminate|].
  assert (Hbody : exists injected,
            match
              Pydantic.class_body []
                (Pydantic.ns_update (Pydantic.ns_update [] injected)
                   (Pydantic.items (Pydantic.field_definitions defs)))
            with
            | Ok fs => Ok fs = Ok (defaults m)
            | Raise _ => False
            end).
  { destruct (Dict.get "__config__" defs) as [[]|]; try discriminate;
      (destruct (match Dict.get "__validators__" defs with
                 | Some v => if truthy v then Pydantic.update_entries v
                             else Ok []
                 | None => Ok []
                 end) as [injected|]; simpl in H; [|discriminate]);
      exists injected;
      (destruct (match Pydantic.ns_get "Config" _ with
                 | Some v => truthy v
                 | None => false
                 end); [discriminate|]);
      (destruct (Pydantic.unhashable_module defs true); [discriminate|]);
      (destruct (Pydantic.class_body [] _) as [fs|]; simpl in H;
       [|discriminate]);
      (destruct (Pydantic.unhashable_module defs false); [discriminate|]);
      injection H as <-; reflexivity. }
  destruct Hbody as [injected Hbody].
  set (ns := Pydantic.ns_update _ _) in Hbody.
  destruct (Pydantic.class_body [] ns) as [fs|] eqn:Hfs; [|contradiction].
  injection Hbody as ->.
  exists (named_entries ns). split; [now apply class_body_named|].
  subst ns. rewrite !named_entries_update, named_entries_items. simpl.
  split.
  - apply NoDup_keys_update, NoDup_keys_update. constructor.
  - intros n v Hn Hget. apply get_update.
    + now apply NoDup_field_definitions.
    + now rewrite get_field_definitions.
Qed.


(** C10: a missing top-level key never makes the builder fail.  It
    returns for any payload what it returns once the missing keys are
    entered with an empty index, an empty attribute list and an empty
    type name, and the empty payload gives the series named [Series]
    with an empty index and no attribute field. *)
Theorem missing_keys_have_defaults :
  (forall p, from_quantumleap_format p = from_quantumleap_format (explicit p))
  /\ explicit [] = [("attributes", VList []); ("index", VList []);
                    ("entityType", VStr "")]
  /\ from_quantumleap_format [] = Ok (mk_series "Series" [] []).
Proof.
  split; [|split; reflexivity].
  intros p. unfold from_quantumleap_format, explicit.
  rewrite !get_default_fill by (try discriminate; reflexivity).
  reflexivity.
Qed.

(** ** Construction of model instances *)

Lemma validate_model (m : list string) (ds : list decl) (kwargs : dict) :
  validate (TModel m ds) (VDict kwargs)
  = if binds_self kwargs ds then Raise TypeError
    else validate_fields m kwargs ds [] false.
Proof.
  simpl. destruct (binds_self kwargs ds); [reflexivity|].
  match goal with
  | |- ?loop ds [] false = _ =>
      enough (H : forall acc failed,
                 loop ds acc failed = validate_fields m kwargs ds acc failed)
        by apply H
  end.
  induction ds as [|[name [t' dflt]] ds IH]; intros acc failed; simpl.
  - reflexivity.
  - destruct (Dict.get name kwargs) as [v'|].
    + destruct (validate t' v') as [w|e]; [apply IH|].
      destruct (collected e); [apply IH|reflexivity].
    + match goal with
      | |- (if ?c then _ else _) = _ => destruct c; apply IH
      end.
Qed.

Lemma construct_eq (cls : pyclass) (kwargs : dict) :
  construct cls kwargs
  = if binds_self kwargs (decls cls) then Raise TypeError
    else validate_fields (mro cls) kwargs (decls cls) [] false.
Proof. apply validate_model. Qed.

(** Declarations that are all optional take their defaults when only an
    [id] is passed. *)
Lemma defaults_from_id (m : list string) (id : value) (ds : list decl)
    (acc : dict) :
  forallb (fun d => negb (required d) && negb (String.eqb (fst d) "id")) ds
  = true ->
  validate_fields m [("id", id)] ds acc false
  = Ok (VModel m (acc ++ map (fun d => (fst d, default_of d)) ds)).
Proof.
  revert acc. induction ds as [|[name [t' dflt]] ds IH]; intros acc H.
  - simpl. now rewrite app_nil_r.
  - cbn [forallb] in H. apply andb_true_iff in H as [Hd Hds].
    apply andb_true_iff in Hd as [Hreq Hid].
    apply negb_true_iff in Hreq, Hid.
    cbn [validate_fields Dict.get]. cbn [fst] in Hid. rewrite Hid, Hreq.
    rewrite (IH _ Hds), <- app_assoc. reflexivity.
Qed.

Lemma probe_type (k : kind) (t : string) :
  type_literal k = Some t -> defaulted k = true ->
  exists probe,
    construct (class_of k) [("id", VStr "")] = Ok probe /\
    getattr probe "type" = Ok (VStr t).
Proof.
  intros Ht Hk. rewrite construct_eq.
  unfold class_of. rewrite Ht.
  cbn [decls mro validate_fields Dict.get option_map required].
  simpl (String.eqb _ _). cbn [validate str_validator app].
  rewrite (defaults_from_id _ _ _ _ Hk).
  eexists. split; reflexivity.
Qed.

Lemma from_raw_probed (k : kind) (t : string) (raw : dict) :
  type_literal k = Some t -> defaulted k = true ->
  from_raw k raw =
  if has_type t raw
  then e <- construct (class_of k) raw ;; Ok (Some e)
  else Ok None.
Proof.
  intros Ht Hk. unfold from_raw.
  destruct (probe_type k t Ht Hk) as (probe & -> & Htype). simpl.
  rewrite Htype. simpl. unfold has_type.
  destruct (eq_str _ t); reflexivity.
Qed.

(** C6, as amended: for every entity class whose [type] has a literal
    and whose attribute fields are all optional, [from_raw] returns
    [None], without an error, on every record whose [type] differs from
    the literal, whatever else the record holds. *)
Theorem from_raw_other_type (k : kind) (t : string) (raw : dict) :
  type_literal k = Some t ->
  defaulted k = true ->
  has_type t raw = false ->
  from_raw k raw = Ok None.
Proof.
  intros Ht Hk Hraw. rewrite (from_raw_probed k t raw Ht Hk), Hraw.
  reflexivity.
Qed.

Lemma filter_entities_probed (k : kind) (t : string) (data : list dict) :
  type_literal k = Some t -> defaulted k = true ->
  filter_entities data k
  = comprehension (construct (class_of k)) (filter (has_type t) data).
Proof.
  intros Ht Hk. unfold filter_entities.
  induction data as [|raw data IH]; [reflexivity|].
  simpl. rewrite (from_raw_probed k t raw Ht Hk).
  destruct (has_type t raw); simpl.
  - destruct (construct (class_of k) raw) as [e|]; simpl; [|reflexivity].
    rewrite <- IH.
    destruct (comprehension (from_raw k) data); reflexivity.
  - rewrite <- IH.
    destruct (comprehension (from_raw k) data); reflexivity.
Qed.


(** C7, as amended: every wrapper class maps [None] to [None]; [Attr]
    wraps any other value as it is, with no type tag; [FloatAttr] wraps a
    float as it is with the tag [Number]; [TextAttr] wraps a string as it
    is with the tag [Text]. *)
Theorem new_wraps :
  new Attr VNone = Ok None /\
  new FloatAttr VNone = Ok None /\
  new TextAttr VNone = Ok None /\
  (forall v,
     new Attr v =
     match v with
     | VNone => Ok None
     | _ => Ok (Some (VModel ["Attr"] [("type", VNone); ("value", v)]))
     end) /\
  (forall f,
     new FloatAttr (VFloat f) =
     Ok (Some (VModel ["FloatAttr"; "Attr"]
                 [("type", VStr "Number"); ("value", VFloat f)]))) /\
  (forall s,
     new TextAttr (VStr s) =
     Ok (Some (VModel ["TextAttr"; "Attr"]
                 [("type", VStr "Text"); ("value", VStr s)]))).
Proof.
  repeat split; intros; reflexivity.
Qed.

(** ** Serialization *)

Lemma export_model (m : list string) (fs : dict) :
  export (VModel m fs) = VDict (export_fields fs).
Proof.
  reflexivity.
Qed.

Lemma export_fields_keys (k : string) (fs : dict) :
  In k (Dict.keys (export_fields fs)) -> In k (Dict.keys fs).
Proof.
  induction fs as [|[k0 w] fs IH]; [auto|].
  destruct w; cbn [export_fields Dict.keys map fst In]; tauto.
Qed.

Lemma export_fields_none (k : string) (fs : dict) :
  NoDup (Dict.keys fs) -> Dict.get k fs = Some VNone ->
  ~ In k (Dict.keys (export_fields fs)).
Proof.
  induction fs as [|[k0 w] fs IH]; [discriminate|].
  intros Hnd Hget. inversion Hnd as [|? ? Hnotin Hnd']; subst.
  cbn [Dict.get] in Hget.
  destruct (String.eqb_spec k k0) as [->|Hne].
  - injection Hget as ->. cbn [export_fields].
    intros Hin. apply Hnotin. now apply export_fields_keys.
  - specialize (IH Hnd' Hget).
    destruct w; cbn [export_fields Dict.keys map fst In];
      solve [exact IH | intros [E|Hin]; [congruence|now apply IH]].
Qed.

Lemma export_fields_some (k : string) (w : value) (fs : dict) :
  Dict.get k fs = Some w -> w <> VNone ->
  Dict.get k (export_fields fs) = Some (export w).
Proof.
  intros Hget Hw. induction fs as [|[k0 w0] fs IH]; [discriminate|].
  cbn [Dict.get] in Hget.
  destruct (String.eqb_spec k k0) as [->|Hne].
  - injection Hget as ->.
    destruct w; try (now elim Hw); cbn [export_fields Dict.get];
      now rewrite String.eqb_refl.
  - apply String.eqb_neq in Hne.
    destruct w0; cbn [export_fields Dict.get]; rewrite ?Hne; auto.
Qed.


(** ** Identifiers *)

(** C9: [set_id_with_type_prefix] assigns
    ["urn:ngsi-ld:" + type + ":" + suffix] to the entity's [id], whatever
    the [id] was, leaves everything else as it is and returns the entity
    it was called on. *)
Theorem set_id_with_type_prefix_assigns (h : store) (self : ref)
    (m : list string) (fs : dict) (t : string) (old : value)
    (unique_suffix : string) :
  h self = Some (VModel m fs) ->
  Dict.get "type" fs = Some (VStr t) ->
  Dict.get "id" fs = Some old ->
  exists h' obj',
    set_id_with_type_prefix h self unique_suffix = Ok (h', self) /\
    h' self = Some obj' /\
    getattr obj' "id"
    = Ok (VStr ("urn:ngsi-ld:" ++ t ++ ":" ++ unique_suffix)) /\
    (forall name,
       name <> "id" -> getattr obj' name = getattr (VModel m fs) name) /\
    (forall r, r <> self -> h' r = h r).
Proof.
  intros Hself Htype Hid.
  exists (store_set h self
            (VModel m (Dict.set "id"
                         (VStr (ld_urn (t ++ ":" ++ unique_suffix))) fs))).
  eexists. split; [|split; [|split; [|split]]].
  - unfold set_id_with_type_prefix. rewrite Hself. simpl.
    rewrite Htype. simpl. rewrite Hid. simpl. reflexivity.
  - unfold store_set. rewrite Nat.eqb_refl. reflexivity.
  - simpl. rewrite get_set. reflexivity.
  - intros name Hname. simpl. rewrite get_set.
    destruct (String.eqb_spec name "id"); [contradiction|reflexivity].
  - intros r Hr. unfold store_set.
    destruct (Nat.eqb_spec r self); [contradiction|reflexivity].
Qed.

(** ** More on the series builder *)

Lemma comprehension_In {A B : Type} (f : A -> result B) (l : list A)
    (ys : list B) (x : A) (y : B) :
  comprehension f l = Ok ys -> In x l -> f x = Ok y -> In y ys.
Proof.
  intros Hl Hin Hx. apply comprehension_Forall2 in Hl.
  induction Hl as [|x0 y0 l ys Hx0 _ IH]; [destruct Hin|].
  destruct Hin as [->|Hin]; [left; congruence|right; auto].
Qed.

Lemma comprehension_In_inv {A B : Type} (f : A -> result B) (l : list A)
    (ys : list B) (y : B) :
  comprehension f l = Ok ys -> In y ys -> exists x, In x l /\ f x = Ok y.
Proof.
  intros Hl Hin. apply comprehension_Forall2 in Hl.
  induction Hl as [|x0 y0 l ys Hx0 _ IH]; [destruct Hin|].
  destruct Hin as [->|Hin]; [exists x0; split; [now left|assumption]|].
  destruct (IH Hin) as (x & Hx & Hfx). exists x. split; [now right|assumption].
Qed.

(** X1: keys of the payload other than [attributes], [index] and
    [entityType] are not read: setting one changes nothing. *)
Theorem other_keys_are_ignored (p : dict) (k : string) (v : value) :
  k <> "attributes" -> k <> "index" -> k <> "entityType" ->
  from_quantumleap_format (Dict.set k v p) = from_quantumleap_format p.
Proof.
  intros Ha Hi He. unfold from_quantumleap_format.
  rewrite !get_default_set.
  destruct (String.eqb_spec "attributes" k); [congruence|].
  destruct (String.eqb_spec "index" k); [congruence|].
  destruct (String.eqb_spec "entityType" k); [congruence|].
  reflexivity.
Qed.



Lemma merge_from_keys (n : string) (kvs : list kv) (acc : dict) :
  In n (Dict.keys (merge_from acc kvs)) ->
  In n (Dict.keys acc) \/ exists v, In (Entry (VStr n) v) kvs.
Proof.
  revert acc. induction kvs as [|e kvs IH]; intros acc Hin; [now left|].
  change (merge_from acc (e :: kvs))
    with (merge_from (Dict.update acc (str_entries e)) kvs) in Hin.
  destruct (IH _ Hin) as [Hacc|[v Hv]].
  - destruct e as [|[] v]; simpl in Hacc; try (now left).
    destruct (keys_set_in _ _ _ _ Hacc) as [->|Hacc']; [|now left].
    right. exists v. now left.
  - right. exists v. now right.
Qed.

Lemma add_fields_keys (n : string) (defs acc r : dict) :
  Pydantic.add_fields acc defs = Ok r ->
  In n (Dict.keys r) -> In n (Dict.keys acc) \/ In n (Dict.keys defs).
Proof.
  revert acc. induction defs as [|[k v] defs IH]; simpl; intros acc H Hin.
  - injection H as <-. now left.
  - destruct (Pydantic.add_field acc k v) as [acc'|] eqn:Hk; simpl in H;
      [|discriminate].
    destruct (IH _ H Hin) as [Hacc'|Hdefs]; [|now right; right].
    unfold Pydantic.add_field in Hk.
    destruct (Pydantic.starts_with_underscore k);
      [destruct (Pydantic.replaces_attribute k); [discriminate|];
       injection Hk as <-; now left|].
    destruct (Pydantic.shadows k); [discriminate|].
    destruct (String.eqb k "index"); [discriminate|].
    assert (Hset : acc' = Dict.set k v acc)
      by (destruct v; try discriminate; now injection Hk as <-).
    subst acc'. destruct (keys_set_in _ _ _ _ Hacc') as [->|Hacc];
      [right; now left|now left].
Qed.

Lemma to_kv_entry_nonempty (n : string) (x v : value) :
  to_kv x = Ok (Entry (VStr n) v) -> n <> "".
Proof.
  destruct x; try discriminate.
  unfold to_kv, method_get. simpl.
  destruct (eq_str (Dict.get_default "attrName" (VStr "") d) "") eqn:Hk;
    [discriminate|].
  destruct (hashable (Dict.get_default "attrName" (VStr "") d));
    [|discriminate].
  intros H. injection H as H _. rewrite H in Hk. simpl in Hk.
  intros ->. discriminate.
Qed.

Lemma keys_update_in (n : string) (e d : dict) :
  In n (Dict.keys (Dict.update d e)) ->
  In n (Dict.keys d) \/ In n (Dict.keys e).
Proof.
  unfold Dict.update. revert d.
  induction e as [|[k v] e IH]; intros d; simpl; [now left|].
  intros Hin. destruct (IH _ Hin) as [Hd|He]; [|now right; right].
  destruct (keys_set_in _ _ _ _ Hd) as [->|Hd']; [right|]; now left.
Qed.

Lemma create_model_keys (name : string) (defs : dict) (m : model)
    (n : string) :
  Pydantic.create_model name defs = Ok m ->
  Dict.get "__validators__" defs = None ->
  In n (Dict.keys (defaults m)) -> In n (Dict.keys defs).
Proof.
  unfold Pydantic.create_model. intros H Hv Hin. rewrite Hv in H.
  destruct (existsb _ Pydantic.given); [discriminate|].
  assert (Hbody : Pydantic.class_body []
                    (Pydantic.ns_update (Pydantic.ns_update [] [])
                       (Pydantic.items (Pydantic.field_definitions defs)))
                  = Ok (defaults m)).
  { destruct (Dict.get "__config__" defs) as [[]|]; try discriminate;
      cbn [bind] in H;
      (destruct (match Pydantic.ns_get "Config" _ with
                 | Some v => truthy v
                 | None => false
                 end); [discriminate|]);
      (destruct (Pydantic.unhashable_module defs true); [discriminate|]);
      (destruct (Pydantic.class_body [] _) as [fs|]; simpl in H;
       [|discriminate]);
      (destruct (Pydantic.unhashable_module defs false); [discriminate|]);
      injection H as <-; reflexivity. }
  apply class_body_named in Hbody.
  rewrite !named_entries_update, named_entries_items in Hbody.
  destruct (add_fields_keys n _ _ _ Hbody Hin) as [[]|Hdefs].
  destruct (keys_update_in _ _ _ Hdefs) as [[]|Hfd].
  now apply keys_field_definitions.
Qed.



(** X6: an attribute element that is not a dictionary is fatal: the
    builder raises and returns no series. *)
Theorem attribute_must_be_a_dictionary (p : dict) (xs : list value)
    (x : value) :
  iterate (Dict.get_default "attributes" (VList []) p) = Ok xs ->
  In x xs ->
  (forall d, x <> VDict d) ->
  exists e, from_quantumleap_format p = Raise e.
Proof.
  intros Hxs Hin Hx. unfold from_quantumleap_format. rewrite Hxs. simpl.
  destruct (comprehension_raises to_kv xs x Hin) as [e ->]; [|simpl; eauto].
  intros y. destruct x; try discriminate. now elim (Hx d).
Qed.

(** X7: an attribute element whose [attrName] is not a string is fatal:
    the builder raises and returns no series. *)
Theorem attribute_name_must_be_a_string (p : dict) (xs : list value)
    (d : dict) (k : value) :
  iterate (Dict.get_default "attributes" (VList []) p) = Ok xs ->
  In (VDict d) xs ->
  Dict.get "attrName" d = Some k ->
  is_str k = false ->
  exists e, from_quantumleap_format p = Raise e.
Proof.
  intros Hxs Hin Hd Hk. unfold from_quantumleap_format. rewrite Hxs. simpl.
  destruct (comprehension to_kv xs) as [kvs|] eqn:Hkvs; simpl; [|eauto].
  destruct (iterate (Dict.get_default "index" (VList []) p)) as [ts|];
    simpl; [|eauto].
  destruct (comprehension fromisoformat ts); simpl; [|eauto].
  assert (Hto : to_kv (VDict d)
                = if hashable k
                  then Ok (Entry k (Dict.get_default "values" (VList []) d))
                  else Raise TypeError).
  { unfold to_kv, method_get. simpl.
    replace (Dict.get_default "attrName" (VStr "") d) with k
      by (unfold Dict.get_default; now rewrite Hd).
    destruct k; try discriminate; reflexivity. }
  assert (Hall : forallb str_keyed kvs = false).
  { destruct (hashable k).
    - apply not_true_is_false. intros Hall.
      rewrite forallb_forall in Hall.
      specialize (Hall _ (comprehension_In _ _ _ _ _ Hkvs Hin Hto)).
      destruct k; discriminate.
    - exfalso.
      assert (Hbad : forall y, to_kv (VDict d) <> Ok y)
        by (rewrite Hto; discriminate).
      destruct (comprehension_raises to_kv xs _ Hin Hbad) as [e' He'].
      congruence. }
  unfold keywords. rewrite Hall. simpl. eauto.
Qed.

(** ** More on entities *)

Lemma not_none_app {A : Type} (a b : list (option A)) :
  not_none (a ++ b) = (not_none a ++ not_none b)%list.
Proof.
  induction a as [|[x|] a IH]; simpl; [reflexivity| |assumption].
  now rewrite IH.
Qed.

Lemma not_none_length {A : Type} (l : list (option A)) :
  (List.length (not_none l) <= List.length l)%nat.
Proof.
  induction l as [|[x|] l IH]; simpl; lia.
Qed.

Lemma not_none_In {A : Type} (l : list (option A)) (x : A) :
  In x (not_none l) -> In (Some x) l.
Proof.
  induction l as [|[y|] l IH]; simpl; [auto| |auto].
  intros [->|H]; auto.
Qed.

Lemma str_validator_str (v w : value) :
  str_validator v = Ok w -> exists s, w = VStr s.
Proof.
  destruct v; simpl; intros H; try discriminate; injection H as <-; eauto.
Qed.

Lemma validate_fields_inv (m : list string) (kwargs : dict) (ds : list decl)
    (acc : dict) (failed : bool) (e : value) :
  validate_fields m kwargs ds acc failed = Ok e ->
  failed = false /\
  exists rest,
    e = VModel m (acc ++ rest)%list /\ Dict.keys rest = map fst ds.
Proof.
  revert acc failed.
  induction ds as [|[name [t' dflt]] ds IH]; intros acc failed H.
  - simpl in H. destruct failed; [discriminate|]. injection H as <-.
    split; [reflexivity|]. exists []. now rewrite app_nil_r.
  - cbn [validate_fields] in H.
    assert (Hstep : forall acc' w,
               validate_fields m kwargs ds (acc ++ [(name, w)])%list failed
               = Ok e ->
               acc' = acc ->
               failed = false /\
               exists rest,
                 e = VModel m (acc' ++ rest)%list /\
                 Dict.keys rest = map fst ((name, (t', dflt)) :: ds)).
    { intros acc' w Hw ->. destruct (IH _ _ Hw) as (Hf & rest & -> & Hkeys).
      split; [exact Hf|]. exists ((name, w) :: rest).
      rewrite <- app_assoc. simpl. now rewrite Hkeys. }
    destruct (Dict.get name kwargs) as [v'|].
    + destruct (validate t' v') as [w|e0]; [now apply (Hstep acc w)|].
      destruct (collected e0); [|discriminate].
      destruct (IH _ _ H) as [Hf _]. discriminate.
    + destruct (required (name, (t', dflt))); [|now apply (Hstep acc _ H)].
      destruct (IH _ _ H) as [Hf _]. discriminate.
Qed.

Lemma validate_fields_failed (m : list string) (kwargs : dict)
    (ds : list decl) (acc : dict) (e : value) :
  validate_fields m kwargs ds acc true <> Ok e.
Proof.
  intros H. apply validate_fields_inv in H. destruct H. discriminate.
Qed.

Lemma construct_entity_inv (k : kind) (raw : dict) (e : value) :
  construct (class_of k) raw = Ok e ->
  exists i ty rest,
    e = VModel (mro (class_of k))
          (("id", VStr i) :: ("type", VStr ty) :: rest) /\
    Dict.keys rest = map fst (attributes k) /\
    (has_type ty raw = true \/
     Dict.get "type" raw = None /\ type_literal k = Some ty \/
     exists v, Dict.get "type" raw = Some v /\ is_str v = false).
Proof.
  rewrite construct_eq.
  destruct (binds_self raw _); [discriminate|].
  unfold class_of. cbn [decls mro].
  remember (("type", (TStr, option_map VStr (type_literal k)))
            :: attributes k) as ds eqn:Hds.
  cbn [validate_fields required validate app]. intros H.
  destruct (Dict.get "id" raw) as [vid|];
    [|now apply validate_fields_failed in H].
  destruct (str_validator vid) as [wid|eid] eqn:Hid;
    [|destruct (collected eid); [|discriminate];
      now apply validate_fields_failed in H].
  destruct (str_validator_str _ _ Hid) as [i ->].
  subst ds. cbn [validate_fields validate app] in H.
  destruct (Dict.get "type" raw) as [vty|] eqn:Hraw.
  - destruct (str_validator vty) as [wty|ety] eqn:Hty;
      [|destruct (collected ety); [|discriminate];
        now apply validate_fields_failed in H].
    apply validate_fields_inv in H. destruct H as (_ & rest & -> & Hkeys).
    destruct (str_validator_str _ _ Hty) as [ty ->].
    exists i, ty, rest. split; [reflexivity|]. split; [exact Hkeys|].
    destruct vty; simpl in Hty; try discriminate;
      try (right; right; eexists; split; reflexivity).
    injection Hty as ->. left. unfold has_type, Dict.get_default.
    rewrite Hraw. simpl. apply String.eqb_refl.
  - destruct (type_literal k) as [ty|] eqn:Hlit; simpl in H;
      [|now apply validate_fields_failed in H].
    apply validate_fields_inv in H. destruct H as (_ & rest & -> & Hkeys).
    exists i, ty, rest. split; [reflexivity|]. split; [exact Hkeys|].
    right. left. auto.
Qed.

Lemma has_type_unique (a b : string) (raw : dict) :
  has_type a raw = true -> has_type b raw = true -> a = b.
Proof.
  unfold has_type.
  destruct (Dict.get_default "type" (VStr "") raw); try discriminate.
  unfold eq_str. intros Ha Hb.
  apply String.eqb_eq in Ha, Hb. congruence.
Qed.

Lemma from_raw_shape (k : kind) (t : string) (raw : dict) (e : value) :
  type_literal k = Some t -> defaulted k = true ->
  from_raw k raw = Ok (Some e) ->
  exists i rest,
    e = VModel (mro (class_of k))
          (("id", VStr i) :: ("type", VStr t) :: rest) /\
    Dict.keys rest = map fst (attributes k).
Proof.
  intros Ht Hk. rewrite (from_raw_probed k t raw Ht Hk).
  destruct (has_type t raw) eqn:Hraw; [|discriminate].
  destruct (construct (class_of k) raw) as [e'|] eqn:He; simpl;
    [|discriminate].
  intros H. injection H as ->.
  destruct (construct_entity_inv k raw e He)
    as (i & ty & rest & -> & Hkeys & Hty).
  exists i, rest. split; [|exact Hkeys].
  assert (ty = t); [|now subst].
  destruct Hty as [Hty|[[Hnone Hlit]|(v & Hv & Hstr)]].
  - exact (has_type_unique ty t raw Hty Hraw).
  - congruence.
  - unfold has_type, Dict.get_default in Hraw. rewrite Hv in Hraw.
    destruct v; discriminate.
Qed.

Lemma filter_entities_In (k : kind) (data : list dict) (es : list value)
    (e : value) :
  filter_entities data k = Ok es -> In e es ->
  exists raw, In raw data /\ from_raw k raw = Ok (Some e).
Proof.
  unfold filter_entities.
  destruct (comprehension (from_raw k) data) as [cs|] eqn:Hcs; simpl;
    [|discriminate].
  intros H Hin. injection H as <-. apply not_none_In in Hin.
  exact (comprehension_In_inv _ _ _ _ Hcs Hin).
Qed.

Lemma validate_fields_other_key (m : list string) (key : string) (v : value)
    (raw : dict) (ds : list decl) (acc : dict) (failed : bool) :
  ~ In key (map fst ds) ->
  validate_fields m (Dict.set key v raw) ds acc failed
  = validate_fields m raw ds acc failed.
Proof.
  revert acc failed.
  induction ds as [|[name [t' dflt]] ds IH]; intros acc failed Hkey;
    [reflexivity|].
  cbn [validate_fields]. rewrite get_set.
  destruct (String.eqb_spec name key) as [->|_]; [elim Hkey; now left|].
  assert (Hds : ~ In key (map fst ds)) by (intros Hin; apply Hkey; now right).
  destruct (Dict.get name raw) as [v'|].
  - destruct (validate t' v') as [w|e]; [now apply IH|].
    destruct (collected e); [now apply IH|reflexivity].
  - destruct (required (name, (t', dflt))); now apply IH.
Qed.

(** X8: filtering a batch made of two parts is filtering each part and
    joining the results, the first part's entities first; an error of
    the first part comes before one of the second. *)
Theorem filter_entities_app (k : kind) (d1 d2 : list dict) :
  filter_entities (d1 ++ d2) k =
  (es1 <- filter_entities d1 k ;;
   es2 <- filter_entities d2 k ;; Ok (es1 ++ es2)%list).
Proof.
  unfold filter_entities. rewrite comprehension_app.
  destruct (comprehension (from_raw k) d1) as [c1|]; simpl; [|reflexivity].
  destruct (comprehension (from_raw k) d2) as [c2|]; simpl; [|reflexivity].
  now rewrite not_none_app.
Qed.

(** X9: [filter_entities] returns no more entities than the batch has
    records, and each entity it returns is what [from_raw] makes of some
    record of the batch. *)
Theorem filter_entities_returns_decodings (k : kind) (data : list dict)
    (es : list value) :
  filter_entities data k = Ok es ->
  (List.length es <= List.length data)%nat /\
  (forall e, In e es ->
     exists raw, In raw data /\ from_raw k raw = Ok (Some e)).
Proof.
  intros H. split; [|intros e; now apply filter_entities_In].
  revert H. unfold filter_entities.
  destruct (comprehension (from_raw k) data) as [cs|] eqn:Hcs; simpl;
    [|discriminate].
  intros H. injection H as <-.
  apply comprehension_Forall2, Forall2_length in Hcs. rewrite Hcs.
  apply not_none_length.
Qed.

(** X10: an entity that [from_raw] returns is an instance of the class it
    was called on, with a string [id], the class's own [type] and then
    exactly the attribute fields the class declares, in their order. *)
Theorem from_raw_returns_instance (k : kind) (t : string) (raw : dict)
    (e : value) :
  type_literal k = Some t ->
  defaulted k = true ->
  from_raw k raw = Ok (Some e) ->
  exists i rest,
    e = VModel (mro (class_of k))
          (("id", VStr i) :: ("type", VStr t) :: rest) /\
    Dict.keys rest = map fst (attributes k).
Proof.
  apply from_raw_shape.
Qed.

(** X11: every entity [filter_entities] returns has the type of the
    target class. *)
Theorem filter_entities_keeps_target_type (k : kind) (t : string)
    (data : list dict) (es : list value) (e : value) :
  type_literal k = Some t ->
  defaulted k = true ->
  filter_entities data k = Ok es ->
  In e es ->
  getattr e "type" = Ok (VStr t).
Proof.
  intros Ht Hk Hes Hin.
  destruct (filter_entities_In k data es e Hes Hin) as (raw & _ & Hraw).
  destruct (from_raw_shape k t raw e Ht Hk Hraw) as (i & rest & -> & _).
  reflexivity.
Qed.

(** X12: keys of a record that the entity class does not declare are
    not read, [__pydantic_self__] apart, which names the first parameter
    of the constructor: [from_raw] returns the same with any other such
    key set to anything. *)
Theorem from_raw_ignores_undeclared_keys (k : kind) (raw : dict)
    (key : string) (v : value) :
  ~ In key ("id" :: "type" :: map fst (attributes k)) ->
  key <> "__pydantic_self__" ->
  from_raw k (Dict.set key v raw) = from_raw k raw.
Proof.
  intros Hkey Hself. unfold from_raw.
  destruct (construct (class_of k) [("id", VStr "")]) as [probe|]; simpl;
    [|reflexivity].
  destruct (getattr probe "type") as [own_type|]; simpl; [|reflexivity].
  rewrite get_default_set.
  destruct (String.eqb_spec "type" key) as [<-|_];
    [elim Hkey; right; now left|].
  destruct (differ own_type _); [reflexivity|].
  rewrite !construct_eq. unfold binds_self. rewrite get_set.
  destruct (String.eqb_spec "__pydantic_self__" key) as [E|_];
    [now elim Hself|].
  rewrite validate_fields_other_key; [reflexivity|exact Hkey].
Qed.

(** ** More on identifiers *)

Lemma set_set (k : string) (v v' : value) (d : dict) :
  Dict.set k v' (Dict.set k v d) = Dict.set k v' d.
Proof.
  induction d as [|[k0 v0] d IH]; simpl.
  - now rewrite String.eqb_refl.
  - destruct (String.eqb_spec k k0) as [->|Hne]; simpl.
    + now rewrite String.eqb_refl.
    + apply String.eqb_neq in Hne. now rewrite Hne, IH.
Qed.

Lemma append_cancel (a b c : string) : a ++ b = a ++ c -> b = c.
Proof.
  induction a as [|x a IH]; simpl; [auto|].
  intros H. injection H as H. auto.
Qed.

(** X13: setting the id twice is setting it once with the second
    suffix: the first id is overwritten and nothing else remembers it. *)
Theorem set_id_with_type_prefix_twice (h : store) (self : ref)
    (m : list string) (fs : dict) (t : string) (old : value)
    (s1 s2 : string) :
  h self = Some (VModel m fs) ->
  Dict.get "type" fs = Some (VStr t) ->
  Dict.get "id" fs = Some old ->
  exists h1 h2 h2',
    set_id_with_type_prefix h self s1 = Ok (h1, self) /\
    set_id_with_type_prefix h1 self s2 = Ok (h2, self) /\
    set_id_with_type_prefix h self s2 = Ok (h2', self) /\
    forall r, h2 r = h2' r.
Proof.
  intros Hself Htype Hid.
  assert (Hstep : forall (h0 : store) fs0 old0 s,
             h0 self = Some (VModel m fs0) ->
             Dict.get "type" fs0 = Some (VStr t) ->
             Dict.get "id" fs0 = Some old0 ->
             set_id_with_type_prefix h0 self s
             = Ok (store_set h0 self
                     (VModel m (Dict.set "id"
                                  (VStr (ld_urn (t ++ ":" ++ s))) fs0)),
                   self)).
  { intros h0 fs0 old0 s H0 Ht0 Hi0. unfold set_id_with_type_prefix.
    rewrite H0. simpl. rewrite Ht0. simpl. rewrite Hi0. reflexivity. }
  eexists _, _, _. split; [exact (Hstep h fs old s1 Hself Htype Hid)|].
  split; [|split; [exact (Hstep h fs old s2 Hself Htype Hid)|]].
  - apply (Hstep _ (Dict.set "id" (VStr (ld_urn (t ++ ":" ++ s1))) fs)
             (VStr (ld_urn (t ++ ":" ++ s1)))).
    + unfold store_set. now rewrite Nat.eqb_refl.
    + now rewrite get_set.
    + rewrite get_set. reflexivity.
  - intros r. unfold store_set.
    destruct (Nat.eqb r self); [|reflexivity]. now rewrite set_set.
Qed.

(** X14: for one entity, different suffixes give different ids. *)
Theorem set_id_with_type_prefix_injective (h : store) (self : ref)
    (m : list string) (fs : dict) (t : string) (old : value)
    (s1 s2 : string) (h1 h2 : store) (o1 o2 : value) :
  h self = Some (VModel m fs) ->
  Dict.get "type" fs = Some (VStr t) ->
  Dict.get "id" fs = Some old ->
  set_id_with_type_prefix h self s1 = Ok (h1, self) ->
  set_id_with_type_prefix h self s2 = Ok (h2, self) ->
  h1 self = Some o1 -> h2 self = Some o2 ->
  getattr o1 "id" = getattr o2 "id" ->
  s1 = s2.
Proof.
  intros Hself Htype Hid. unfold set_id_with_type_prefix.
  rewrite Hself. simpl. rewrite Htype. simpl. rewrite Hid. simpl.
  intros H1 H2. injection H1 as <-. injection H2 as <-.
  unfold store_set. rewrite Nat.eqb_refl.
  intros Ho1 Ho2. injection Ho1 as <-. injection Ho2 as <-.
  simpl. rewrite !get_set. simpl. intros H. injection H as H.
  apply append_cancel in H. now injection H.
Qed.

(** ** More on wrappers and serialization *)

(** X15: whatever it is given, [new] returns no wrapper of [None]: a
    wrapper [FloatAttr.new] returns holds a float under the tag [Number],
    one [TextAttr.new] returns holds a string under the tag [Text], and
    one [Attr.new] returns holds the value given, which is not [None]. *)
Theorem new_never_wraps_none (v a : value) :
  (new FloatAttr v = Ok (Some a) ->
   exists f, a = VModel ["FloatAttr"; "Attr"]
                   [("type", VStr "Number"); ("value", VFloat f)]) /\
  (new TextAttr v = Ok (Some a) ->
   exists s, a = VModel ["TextAttr"; "Attr"]
                   [("type", VStr "Text"); ("value", VStr s)]) /\
  (new Attr v = Ok (Some a) ->
   a = VModel ["Attr"] [("type", VNone); ("value", v)] /\ v <> VNone).
Proof.
  unfold new. split; [|split].
  - destruct v; try discriminate; cbn;
      try (destruct (py_float _) as [f|[]]; cbn);
      intros H; try discriminate; injection H as <-; eauto.
  - destruct v; try discriminate; cbn;
      intros H; try discriminate; injection H as <-; eauto.
  - destruct v; try discriminate; cbn;
      intros H; injection H as <-; split; (reflexivity || discriminate).
Qed.

Lemma export_not_none (w : value) : w <> VNone -> export w <> VNone.
Proof. destruct w; intros H; (now elim H) || discriminate. Qed.

Lemma export_fields_keys_eq (fs : dict) :
  Dict.keys (export_fields fs)
  = Dict.keys (filter (fun kv => negb (is_none (snd kv))) fs).
Proof.
  induction fs as [|[k w] fs IH]; [reflexivity|].
  destruct w; cbn [export_fields filter snd is_none negb Dict.keys map fst];
    solve [exact IH | f_equal; exact IH].
Qed.

Lemma export_fields_values (k : string) (v : value) (fs : dict) :
  In (k, v) (export_fields fs) -> v <> VNone.
Proof.
  induction fs as [|[k0 w] fs IH]; [intros []|].
  destruct w; cbn [export_fields In];
    solve [exact IH | intros [H|H]; [injection H as _ <-; discriminate|auto]].
Qed.

Lemma export_plain : forall v, plain (export v) = true.
Proof.
  fix IH 1. intros v. destruct v as [| | | | |l|l|d|m fs]; try reflexivity.
  - simpl. induction l as [|w l IHl]; [reflexivity|].
    now rewrite (IH w), IHl.
  - simpl. induction l as [|w l IHl]; [reflexivity|].
    now rewrite (IH w), IHl.
  - simpl. induction d as [|[k w] d IHd]; [reflexivity|].
    now rewrite (IH w), IHd.
  - simpl. induction fs as [|[k w] fs IHfs]; [reflexivity|].
    pose proof (IH w) as Hw.
    destruct w; try exact IHfs;
      match goal with
      | |- context [export ?w] =>
          change (plain (export w) && plain (VDict (export_fields fs)) = true);
          rewrite Hw; exact IHfs
      end.
Qed.

(** X16: the document [to_json] encodes is plain data, with no model
    instance at any depth; its keys are the names of the fields that do
    not hold [None], in the order of the fields, and none of its entries
    is [None]. *)
Theorem to_json_document (m : list string) (fs : dict) :
  exists doc,
    to_json (VModel m fs) = json_dumps (VDict doc) /\
    Dict.keys doc
    = Dict.keys (filter (fun kv => negb (is_none (snd kv))) fs) /\
    (forall k v, In (k, v) doc -> v <> VNone) /\
    plain (VDict doc) = true.
Proof.
  exists (export_fields fs).
  split; [reflexivity|]. split; [apply export_fields_keys_eq|].
  split; [intros k v; apply export_fields_values|].
  exact (export_plain (VModel m fs)).
Qed.

(** ** EntitiesUpsert *)

Lemma validate_TModel (m : list string) (ds : list decl) (v : value) :
  validate (TModel m ds) v =
  match v with
  | VDict d => validate_kwargs m d ds
  | _ =>
      if isinstance v (hd "" m) then Ok v
      else match dict_of v with
           | Ok d => validate_kwargs m d ds
           | Raise e => Raise e
           end
  end.
Proof.
  unfold validate_kwargs.
  destruct v; try apply validate_model;
    cbn [validate]; destruct (isinstance _ (hd "" m)); try reflexivity;
    destruct (dict_of _) as [d|]; try reflexivity;
    apply (validate_model m ds d).
Qed.

Lemma validate_BaseEntity_instance (x w : value) :
  validate (TModel (mro (class_of BaseEntity)) (decls (class_of BaseEntity))) x
  = Ok w ->
  isinstance w "BaseEntity" = true.
Proof.
  rewrite validate_TModel.
  assert (Hfields : forall d,
             validate_kwargs (mro (class_of BaseEntity)) d
               (decls (class_of BaseEntity)) = Ok w ->
             isinstance w "BaseEntity" = true).
  { intros d. unfold validate_kwargs.
    destruct (binds_self d _); [discriminate|].
    intros H. apply validate_fields_inv in H.
    destruct H as (_ & rest & -> & _). reflexivity. }
  destruct x; try apply Hfields;
    match goal with
    | |- (if ?c then _ else _) = _ -> _ => destruct c eqn:Hinst
    end;
    try (intros H; injection H as <-; exact Hinst);
    destruct (dict_of _); try discriminate; apply Hfields.
Qed.

Lemma validate_items_inv (t : ftype) (l : list value) (acc : list value)
    (failed : bool) (u : value) :
  validate_items t l acc failed = Ok u ->
  failed = false /\
  exists ws,
    u = VList (acc ++ ws)%list /\
    Forall2 (fun x w => validate t x = Ok w) l ws.
Proof.
  revert acc failed. induction l as [|x l IH]; intros acc failed H.
  - simpl in H. destruct failed; [discriminate|]. injection H as <-.
    split; [reflexivity|]. exists []. rewrite app_nil_r. split; constructor.
  - cbn [validate_items] in H.
    destruct (validate t x) as [w|e] eqn:Hx.
    + destruct (IH _ _ H) as (Hf & ws & -> & Hws).
      split; [exact Hf|]. exists (w :: ws). rewrite <- app_assoc.
      split; [reflexivity|]. constructor; assumption.
    + destruct (collected e); [|discriminate].
      destruct (IH _ _ H) as [Hf _]. discriminate.
Qed.

Lemma validate_items_instances (l acc : list value) :
  Forall (fun e => isinstance e "BaseEntity" = true) l ->
  validate_items
    (TModel (mro (class_of BaseEntity)) (decls (class_of BaseEntity)))
    l acc false
  = Ok (VList (acc ++ l)%list).
Proof.
  intros Hl. revert acc.
  induction Hl as [|x l Hx _ IH]; intros acc.
  - simpl. now rewrite app_nil_r.
  - cbn [validate_items]. rewrite validate_TModel.
    destruct x; try discriminate.
    change (hd "" (mro (class_of BaseEntity))) with "BaseEntity".
    rewrite Hx, IH, <- app_assoc. reflexivity.
Qed.

(** X17: an upsert batch that [EntitiesUpsert] builds holds a list of
    instances of [BaseEntity] and a string [actionType], which is
    [append] when none is given. *)
Theorem EntitiesUpsert_invariant (kwargs : dict) (u : value) :
  EntitiesUpsert kwargs = Ok u ->
  exists es a,
    u = VModel ["EntitiesUpsert"]
          [("entities", VList es); ("actionType", VStr a)] /\
    Forall (fun e => isinstance e "BaseEntity" = true) es /\
    (Dict.get "actionType" kwargs = None -> a = "append").
Proof.
  unfold EntitiesUpsert.
  set (entity := TModel _ _).
  destruct (Dict.get "entities" kwargs) as [v|].
  - destruct (list_validator entity v) as [es|e] eqn:Hes.
    + assert (Hent : exists l, es = VList l /\
                       Forall (fun e => isinstance e "BaseEntity" = true) l).
      { unfold list_validator in Hes.
        assert (Hitems : forall l,
                   validate_items entity l [] false = Ok es ->
                   exists l', es = VList l' /\
                     Forall (fun e => isinstance e "BaseEntity" = true) l').
        { intros l H. apply validate_items_inv in H.
          destruct H as (_ & ws & -> & Hws). exists ws. split; [reflexivity|].
          clear Hes. induction Hws as [|x w l ws Hx _ IH]; constructor;
            [exact (validate_BaseEntity_instance x w Hx)|exact IH]. }
        destruct v; try discriminate; eauto. }
      destruct Hent as (l & -> & Hl).
      destruct (Dict.get "actionType" kwargs) as [va|].
      * destruct (str_validator va) as [a|e] eqn:Ha;
          [|destruct (collected e); discriminate].
        destruct (str_validator_str _ _ Ha) as [s ->].
        intros H. injection H as <-. exists l, s.
        split; [reflexivity|]. split; [exact Hl|discriminate].
      * intros H. injection H as <-. exists l, "append".
        split; [reflexivity|]. split; [exact Hl|reflexivity].
    + destruct (Dict.get "actionType" kwargs) as [va|];
        [destruct (str_validator va) as [a|e']|];
        destruct (collected e); try discriminate;
        destruct (collected e'); discriminate.
  - destruct (Dict.get "actionType" kwargs) as [va|];
      [destruct (str_validator va) as [a|e']|]; try discriminate.
    simpl. destruct (collected e'); discriminate.
Qed.

(** X18: entities that are instances of [BaseEntity] or of a subclass
    are kept in the batch as they are and in their order, under the
    action type [append]. *)
Theorem EntitiesUpsert_keeps_instances (es : list value) :
  Forall (fun e => isinstance e "BaseEntity" = true) es ->
  EntitiesUpsert [("entities", VList es)]
  = Ok (VModel ["EntitiesUpsert"]
          [("entities", VList es); ("actionType", VStr "append")]).
Proof.
  intros Hes. unfold EntitiesUpsert. simpl Dict.get.
  unfold list_validator. rewrite (validate_items_instances es [] Hes).
  reflexivity.
Qed.

(** ** Decoding the document of an entity *)

Lemma get_In_NoDup (n : string) (v : value) (l : dict) :
  NoDup (Dict.keys l) -> In (n, v) l -> Dict.get n l = Some v.
Proof.
  induction l as [|[k w] l IH]; [intros _ []|].
  simpl. intros Hnd Hin. inversion Hnd as [|? ? Hnotin Hnd']; subst.
  destruct Hin as [H|Hin].
  - injection H as -> ->. now rewrite String.eqb_refl.
  - destruct (String.eqb_spec n k) as [->|_]; [|auto].
    elim Hnotin. apply (in_map fst) in Hin. exact Hin.
Qed.

Lemma field_fits_keys (ds : list decl) (rest : dict) :
  Forall2 field_fits ds rest -> Dict.keys rest = map fst ds.
Proof.
  induction 1 as [|d nv ds rest Hfit _ IH]; [reflexivity|].
  simpl. rewrite IH. destruct Hfit; reflexivity.
Qed.

Lemma field_fits_defaulted (ds : list decl) (rest : dict) :
  Forall2 field_fits ds rest -> ~ In "id" (map fst ds) ->
  forallb (fun d => negb (required d) && negb (String.eqb (fst d) "id")) ds
  = true.
Proof.
  induction 1 as [|d nv ds rest Hfit _ IH]; [reflexivity|].
  simpl. intros Hid.
  assert (Hd : fst d <> "id") by (intros E; apply Hid; now left).
  assert (Hds : ~ In "id" (map fst ds)) by (intros E; apply Hid; now right).
  apply String.eqb_neq in Hd. rewrite (IH Hds), Hd.
  destruct Hfit; reflexivity.
Qed.

Lemma validate_fitting_fields (m : list string) (kwargs : dict)
    (ds : list decl) (rest acc : dict) :
  Forall2 field_fits ds rest ->
  (forall n v,
     In (n, v) rest ->
     Dict.get n kwargs = if is_none v then None else Some (export v)) ->
  validate_fields m kwargs ds acc false = Ok (VModel m (acc ++ rest)%list).
Proof.
  intros Hfits. revert acc.
  induction Hfits as [|d nv ds rest Hfit _ IH]; intros acc Hget.
  - simpl. now rewrite app_nil_r.
  - assert (Hrest : forall n v,
               In (n, v) rest ->
               Dict.get n kwargs = if is_none v then None else Some (export v))
      by (intros n v Hin; apply Hget; now right).
    destruct Hfit as [name t|name tag f|name tag s];
      cbn [validate_fields];
      rewrite (Hget _ _ (or_introl eq_refl)); cbn [is_none];
      [|cbn..]; rewrite (IH _ Hrest), <- app_assoc; reflexivity.
Qed.

(** X19: decoding undoes encoding: for an entity whose attributes are
    optional [FloatAttr] or [TextAttr] fields, set or not, [from_raw] on
    the document that [to_json] encodes returns the entity. *)
Theorem from_raw_of_document (k : kind) (t i : string) (rest : dict)
    (doc : dict) :
  type_literal k = Some t ->
  Forall2 field_fits (attributes k) rest ->
  NoDup (map fst (attributes k)) ->
  ~ In "id" (map fst (attributes k)) ->
  ~ In "type" (map fst (attributes k)) ->
  export (VModel (mro (class_of k))
            (("id", VStr i) :: ("type", VStr t) :: rest)) = VDict doc ->
  from_raw k doc
  = Ok (Some (VModel (mro (class_of k))
                (("id", VStr i) :: ("type", VStr t) :: rest))).
Proof.
  intros Ht Hfits Hnd Hid Htype Hdoc.
  rewrite export_model in Hdoc. cbn [export_fields export] in Hdoc.
  injection Hdoc as <-.
  assert (Hk : defaulted k = true)
    by exact (field_fits_defaulted _ _ Hfits Hid).
  rewrite (from_raw_probed k t _ Ht Hk).
  unfold has_type, Dict.get_default. cbn [Dict.get]. simpl (String.eqb _ _).
  cbn [eq_str]. rewrite String.eqb_refl.
  pose proof (field_fits_keys _ _ Hfits) as Hkeys.
  assert (Hself : binds_self
                    (("id", VStr i) :: ("type", VStr t) :: export_fields rest)
                    (decls (class_of k)) = false).
  { unfold binds_self. cbn [Dict.get]. simpl (String.eqb _ _).
    destruct (Dict.get "__pydantic_self__" (export_fields rest)) eqn:E;
      [|reflexivity].
    apply negb_false_iff, existsb_exists.
    apply get_Some_in in E. rewrite export_fields_keys_eq in E.
    apply in_map_iff in E as ([n w] & Hn & Hin).
    apply filter_In in Hin as [Hin _]. simpl in Hn. subst n.
    apply (in_map fst) in Hin. fold (Dict.keys rest) in Hin.
    rewrite Hkeys in Hin. apply in_map_iff in Hin as (d & Hd & Hdin).
    exists d. split; [right; right; exact Hdin|].
    rewrite Hd. reflexivity. }
  rewrite construct_eq, Hself. unfold class_of. rewrite Ht.
  cbn [decls mro validate_fields Dict.get option_map].
  simpl (String.eqb _ _). cbn [validate str_validator app].
  rewrite (validate_fitting_fields _ _ _ rest); [reflexivity|exact Hfits|].
  intros n v Hin.
  assert (Hn : In n (map fst (attributes k)))
    by (rewrite <- Hkeys; exact (in_map fst _ _ Hin)).
  cbn [Dict.get].
  destruct (String.eqb_spec n "id") as [->|_]; [contradiction|].
  destruct (String.eqb_spec n "type") as [->|_]; [contradiction|].
  assert (Hrest : Dict.get n rest = Some v).
  { apply get_In_NoDup; [|exact Hin]. now rewrite Hkeys. }
  destruct v; cbn [is_none];
    try (apply export_fields_some; [exact Hrest|discriminate]).
  apply get_None_not_in, export_fields_none; [|exact Hrest].
  now rewrite Hkeys.
Qed.

(** ** Edges *)

(** X20: [from_raw] first instantiates its class from an [id] alone; on a
    class whose [type] has no literal, [BaseEntity] itself for one, that
    fails, so that [from_raw] raises on every record, also on one of
    another type. *)
Theorem from_raw_needs_type_literal (k : kind) (raw : dict) :
  type_literal k = None ->
  exists e, from_raw k raw = Raise e.
Proof.
  intros Ht. unfold from_raw.
  destruct (construct (class_of k) [("id", VStr "")]) as [probe|e] eqn:Hp;
    [|simpl; eauto].
  exfalso. revert Hp. rewrite construct_eq. unfold class_of. rewrite Ht.
  cbn [decls mro validate_fields Dict.get option_map required].
  simpl (String.eqb _ _). cbn [validate str_validator app].
  apply validate_fields_failed.
Qed.

(** X21: a key that is present with the value [None] is not a missing
    key: the builder raises on [attributes: None] and on [index: None]
    instead of taking the default. *)
Theorem none_is_not_a_default (p : dict) :
  (Dict.get "attributes" p = Some VNone ->
   from_quantumleap_format p = Raise TypeError) /\
  (Dict.get "index" p = Some VNone ->
   exists e, from_quantumleap_format p = Raise e).
Proof.
  unfold from_quantumleap_format, Dict.get_default. split; intros H.
  - rewrite H. reflexivity.
  - rewrite H. simpl.
    destruct (iterate _) as [xs|]; simpl; [|eauto].
    destruct (comprehension to_kv xs); simpl; eauto.
Qed.

(** ** Names that collide with a parameter *)

(** X24: a record that holds the key [__pydantic_self__] cannot be
    passed to the constructor as keyword arguments: for an entity class
    with a type literal and only optional attributes, [from_raw] raises
    [TypeError] on such a record of the class's type. *)
Theorem from_raw_refuses_self_keyword (k : kind) (t : string) (raw : dict)
    (v : value) :
  type_literal k = Some t ->
  defaulted k = true ->
  has_type t raw = true ->
  Dict.get "__pydantic_self__" raw = Some v ->
  ~ In "__pydantic_self__" (map fst (attributes k)) ->
  from_raw k raw = Raise TypeError.
Proof.
  intros Ht Hk Hty Hget Hno.
  rewrite (from_raw_probed k t raw Ht Hk), Hty, construct_eq.
  unfold binds_self. rewrite Hget.
  replace (existsb _ (decls (class_of k))) with false; [reflexivity|].
  symmetry. apply not_true_is_false. intros Hex.
  apply existsb_exists in Hex as (d & Hd & Hname).
  apply String.eqb_eq in Hname.
  unfold class_of in Hd. cbn [decls] in Hd.
  destruct Hd as [<-|[<-|Hd]]; try discriminate.
  apply Hno. rewrite <- Hname. now apply in_map.
Qed.

Lemma merge_from_keeps (n : string) (kvs : list kv) (acc : dict) :
  Dict.get n acc <> None -> Dict.get n (merge_from acc kvs) <> None.
Proof.
  revert acc. induction kvs as [|e kvs IH]; intros acc Hacc; [exact Hacc|].
  change (merge_from acc (e :: kvs))
    with (merge_from (Dict.update acc (str_entries e)) kvs).
  apply IH. destruct e as [|[] v]; simpl; try exact Hacc.
  unfold Dict.update. simpl. rewrite get_set.
  destruct (String.eqb n s); [discriminate|exact Hacc].
Qed.

Lemma merge_from_has (n : string) (v : value) (kvs : list kv) (acc : dict) :
  In (Entry (VStr n) v) kvs -> Dict.get n (merge_from acc kvs) <> None.
Proof.
  revert acc. induction kvs as [|e kvs IH]; intros acc Hin; [destruct Hin|].
  change (merge_from acc (e :: kvs))
    with (merge_from (Dict.update acc (str_entries e)) kvs).
  destruct Hin as [->|Hin]; [|now apply IH].
  apply merge_from_keeps. unfold Dict.update. simpl.
  rewrite get_set, String.eqb_refl. discriminate.
Qed.

Lemma to_kv_of_named (n : string) (x : value) :
  n <> "" -> named n x = true -> exists v, to_kv x = Ok (Entry (VStr n) v).
Proof.
  intros Hn Hx. destruct x; try discriminate.
  unfold named in Hx. unfold to_kv, method_get. simpl.
  destruct (Dict.get_default "attrName" (VStr "") d) as [| | | |s| | | |];
    try discriminate.
  simpl in Hx. apply String.eqb_eq in Hx. subst s. simpl.
  destruct (String.eqb_spec n "") as [E|_]; [contradiction|].
  eexists. reflexivity.
Qed.

(** X25: an attribute named [__base__] cannot become a field: the
    builder passes the attribute names as keywords next to a [__base__]
    of its own.  When every attribute element and every index entry is
    read, the builder raises [TypeError]. *)
Theorem base_attribute_is_refused (p : dict) (xs : list value)
    (kvs : list kv) (ts : list value) (tix : list datetime) (x : value) :
  iterate (Dict.get_default "attributes" (VList []) p) = Ok xs ->
  comprehension to_kv xs = Ok kvs ->
  iterate (Dict.get_default "index" (VList []) p) = Ok ts ->
  comprehension fromisoformat ts = Ok tix ->
  In x xs ->
  named "__base__" x = true ->
  from_quantumleap_format p = Raise TypeError.
Proof.
  intros Hxs Hkvs Hts Htix Hin Hx. unfold from_quantumleap_format.
  rewrite Hxs. simpl. rewrite Hkvs. simpl. rewrite Hts. simpl.
  rewrite Htix. simpl. unfold keywords.
  destruct (forallb str_keyed kvs); simpl; [|reflexivity].
  destruct (to_kv_of_named "__base__" x) as [v Hto];
    [discriminate|exact Hx|].
  pose proof (comprehension_In _ _ _ _ _ Hkvs Hin Hto) as Hentry.
  pose proof (merge_from_has "__base__" v kvs [] Hentry) as Hget.
  change (merge_from [] kvs) with (merge_dicts (map str_entries kvs)) in Hget.
  unfold Pydantic.create_model, Pydantic.given. cbn [existsb].
  destruct (Dict.get "__base__" (merge_dicts (map str_entries kvs)));
    [reflexivity|now elim Hget].
Qed.

(** ** Evaluations that hold whatever the builtins compute *)

Lemma underscore_payload_series :
  from_quantumleap_format underscore_payload = Ok (mk_series "Series" [] []).
Proof. reflexivity. Qed.

Lemma construct_without_id :
  construct (class_of Bot) [("type", VStr "Bot")] = Raise ValidationError.
Proof. reflexivity. Qed.

Lemma from_raw_decodes :
  from_raw Bot [("id", VStr "b1"); ("type", VStr "Bot"); ("x", VInt 1)]
  = Ok (Some (VModel ["Bot"; "BaseEntity"]
                [("id", VStr "b1"); ("type", VStr "Bot")])).
Proof. reflexivity. Qed.

Lemma probe_of_Sensor :
  construct (class_of Sensor) [("id", VStr "")] = Raise ValidationError.
Proof. reflexivity. Qed.

Lemma probe_of_BaseEntity :
  construct (class_of BaseEntity) [("id", VStr "")] = Raise ValidationError.
Proof. reflexivity. Qed.

Lemma float_attr_refuses (v : value) :
  match v with
  | VList _ | VTuple _ | VDict _ | VModel _ _ => True
  | _ => False
  end ->
  new FloatAttr v = Raise ValidationError.
Proof. destruct v; intros []; reflexivity. Qed.

Lemma text_attr_converts (z : Z) :
  new TextAttr (VInt z)
  = Ok (Some (VModel ["TextAttr"; "Attr"]
                [("type", VStr "Text"); ("value", VStr (py_repr (VInt z)))])).
Proof. reflexivity. Qed.

End Builtins.

(** ** Instances *)

(** A malformed second entry makes the builder raise. *)
Lemma rejected_timestamp_is_fatal_witness :
  (exists e,
     from_quantumleap_format no_repr
       [("index", VList [VStr "2020-01-01T00:00:00"; VStr "yesterday"])]
     = Raise e) /\
  (forall s,
     from_quantumleap_format no_repr
       [("index", VList [VStr "2020-01-01T00:00:00"; VStr "yesterday"])]
     <> Ok s).
Proof.
  apply (rejected_timestamp_is_fatal no_repr fromisoformat
           [("index", VList [VStr "2020-01-01T00:00:00"; VStr "yesterday"])]
           [VStr "2020-01-01T00:00:00"; VStr "yesterday"] (VStr "yesterday")).
  - reflexivity.
  - simpl. auto.
  - intros d. vm_compute. discriminate.
Defined.

(** C2, as stated, fails: with [X] for [T] the entry is no ISO-8601
    timestamp, and [datetime.fromisoformat] reads it all the same, as it
    does whatever character separates date and time; the builder returns
    a series. *)
Lemma other_separator_is_read :
  iso8601 "2020-01-01X00:00:00" = false /\
  iso8601 "2020-01-01T00:00:00" = true /\
  from_quantumleap_format no_repr
    [("index", VList [VStr "2020-01-01X00:00:00"])]
  = Ok (mk_series "Series" [midnight] []).
Proof. repeat split; reflexivity. Qed.

(** The Room payload with an attribute of empty name added. *)
Lemma unnamed_attribute_is_dropped_witness :
  from_quantumleap_format no_repr
    (Dict.set "attributes"
       (VList [VDict [("attrName", VStr "temp");
                      ("values", VList [VInt 10; VInt 12])];
               VDict [("attrName", VStr "");
                      ("values", VList [VInt 1; VInt 2])]])
       room_payload)
  = from_quantumleap_format no_repr room_payload.
Proof.
  apply (unnamed_attribute_is_dropped no_repr room_payload
           [VDict [("attrName", VStr "temp");
                   ("values", VList [VInt 10; VInt 12])]]
           []
           [("attrName", VStr ""); ("values", VList [VInt 1; VInt 2])]).
  - reflexivity.
  - right. reflexivity.
Defined.


(** C4: on two attributes named [_t], with the values [[1]] and [[2]],
    the builder returns a series that has no field [_t]: pydantic does
    not make a field of a name that starts with an underscore, and the
    builder hands every attribute name to it as it comes.  Its
    docstring promises a field for each returned attribute array. *)
Lemma underscore_name_is_no_field :
  exists s,
    from_quantumleap_format no_repr underscore_payload = Ok s /\
    Dict.count "_t" (fields s) = 0%nat /\
    Dict.get "_t" (fields s) = None.
Proof.
  eexists. split; [reflexivity|]. split; reflexivity.
Qed.



(** A record of type [Room] is no [Bot]. *)
Lemma from_raw_other_type_witness :
  from_raw no_float no_repr Bot [("id", VStr "r1"); ("type", VStr "Room")]
  = Ok None.
Proof.
  apply (from_raw_other_type no_float no_repr Bot "Bot"); reflexivity.
Defined.

(** C6, as stated, fails: [Sensor] has a required attribute, so that it
    cannot be instantiated from an [id] alone, and [from_raw] raises on a
    record of another type. *)
Lemma from_raw_required_attribute :
  has_type "Sensor" [("id", VStr "r1"); ("type", VStr "Room")] = false /\
  from_raw no_float no_repr Sensor [("id", VStr "r1"); ("type", VStr "Room")]
  = Raise ValidationError.
Proof.
  split; reflexivity.
Qed.

(** C7, as stated, fails: a list is a concrete value that neither
    [FloatAttr] nor [TextAttr] wraps. *)
Lemma new_refuses_list :
  new no_float no_repr FloatAttr (VList []) = Raise ValidationError /\
  new no_float no_repr TextAttr (VList []) = Raise ValidationError.
Proof.
  split; reflexivity.
Qed.


(** An entity of type [Sensor] and the suffix [xyz]. *)
Lemma set_id_with_type_prefix_assigns_witness :
  exists h' obj',
    set_id_with_type_prefix no_repr sensor_store 7%nat "xyz" = Ok (h', 7%nat) /\
    h' 7%nat = Some obj' /\
    getattr obj' "id" = Ok (VStr "urn:ngsi-ld:Sensor:xyz") /\
    (forall name, name <> "id" -> getattr obj' name = getattr sensor name) /\
    (forall r, r <> 7%nat -> h' r = sensor_store r).
Proof.
  apply (set_id_with_type_prefix_assigns no_repr sensor_store 7%nat
           ["Sensor"; "BaseEntity"] _ "Sensor" (VStr "1") "xyz");
    reflexivity.
Defined.


(** ** Instances of the further properties *)

Lemma other_keys_are_ignored_witness :
  from_quantumleap_format no_repr
    (Dict.set "entityId" (VStr "Room:1") room_payload)
  = from_quantumleap_format no_repr room_payload.
Proof.
  apply (other_keys_are_ignored no_repr room_payload "entityId"
           (VStr "Room:1")); discriminate.
Defined.





Lemma attribute_must_be_a_dictionary_witness :
  exists e,
    from_quantumleap_format no_repr [("attributes", VList [VStr "temp"])]
    = Raise e.
Proof.
  apply (attribute_must_be_a_dictionary no_repr
           [("attributes", VList [VStr "temp"])] [VStr "temp"] (VStr "temp")).
  - reflexivity.
  - simpl. auto.
  - discriminate.
Defined.

Lemma attribute_name_must_be_a_string_witness :
  exists e,
    from_quantumleap_format no_repr
      [("attributes", VList [VDict [("attrName", VInt 5)]])]
    = Raise e.
Proof.
  apply (attribute_name_must_be_a_string no_repr
           [("attributes", VList [VDict [("attrName", VInt 5)]])]
           [VDict [("attrName", VInt 5)]] [("attrName", VInt 5)] (VInt 5)).
  - reflexivity.
  - simpl. auto.
  - reflexivity.
  - reflexivity.
Defined.

Lemma filter_entities_returns_decodings_witness :
  (List.length [bot_b1] <= List.length bot_batch)%nat /\
  (forall e, In e [bot_b1] ->
     exists raw,
       In raw bot_batch /\ from_raw no_float no_repr Bot raw = Ok (Some e)).
Proof.
  apply (filter_entities_returns_decodings no_float no_repr Bot bot_batch
           [bot_b1]).
  reflexivity.
Defined.

Lemma from_raw_returns_instance_witness :
  exists i rest,
    bot_b1 = VModel (mro (class_of Bot))
               (("id", VStr i) :: ("type", VStr "Bot") :: rest) /\
    Dict.keys rest = map fst (attributes Bot).
Proof.
  apply (from_raw_returns_instance no_float no_repr Bot "Bot"
           [("id", VStr "b1"); ("type", VStr "Bot"); ("speed", VInt 3)]
           bot_b1); reflexivity.
Defined.

Lemma filter_entities_keeps_target_type_witness :
  getattr bot_b1 "type" = Ok (VStr "Bot").
Proof.
  apply (filter_entities_keeps_target_type no_float no_repr Bot "Bot"
           bot_batch [bot_b1] bot_b1); try reflexivity.
  simpl. auto.
Defined.

Lemma from_raw_ignores_undeclared_keys_witness :
  from_raw no_float no_repr Bot
    (Dict.set "speed" (VInt 3) [("id", VStr "b1"); ("type", VStr "Bot")])
  = from_raw no_float no_repr Bot [("id", VStr "b1"); ("type", VStr "Bot")].
Proof.
  apply (from_raw_ignores_undeclared_keys no_float no_repr Bot
           [("id", VStr "b1"); ("type", VStr "Bot")] "speed" (VInt 3)).
  - simpl. intros [H|[H|[]]]; discriminate.
  - discriminate.
Defined.

Lemma set_id_with_type_prefix_twice_witness :
  exists h1 h2 h2',
    set_id_with_type_prefix no_repr sensor_store 7%nat "abc"
    = Ok (h1, 7%nat) /\
    set_id_with_type_prefix no_repr h1 7%nat "xyz" = Ok (h2, 7%nat) /\
    set_id_with_type_prefix no_repr sensor_store 7%nat "xyz"
    = Ok (h2', 7%nat) /\
    forall r, h2 r = h2' r.
Proof.
  apply (set_id_with_type_prefix_twice no_repr sensor_store 7%nat
           ["Sensor"; "BaseEntity"]
           [("id", VStr "1"); ("type", VStr "Sensor");
            ("temp", VModel ["FloatAttr"; "Attr"]
                       [("type", VStr "Number"); ("value", VFloat 21.5)]);
            ("room", VNone)]
           "Sensor" (VStr "1") "abc" "xyz");
    reflexivity.
Defined.

Lemma set_id_with_type_prefix_injective_witness : "xyz" = "xyz".
Proof.
  set (o := VModel ["Sensor"; "BaseEntity"]
              (Dict.set "id" (VStr "urn:ngsi-ld:Sensor:xyz")
                 [("id", VStr "1"); ("type", VStr "Sensor");
                  ("temp", VModel ["FloatAttr"; "Attr"]
                             [("type", VStr "Number");
                              ("value", VFloat 21.5)]);
                  ("room", VNone)])).
  apply (set_id_with_type_prefix_injective no_repr sensor_store 7%nat
           ["Sensor"; "BaseEntity"]
           [("id", VStr "1"); ("type", VStr "Sensor");
            ("temp", VModel ["FloatAttr"; "Attr"]
                       [("type", VStr "Number"); ("value", VFloat 21.5)]);
            ("room", VNone)]
           "Sensor" (VStr "1") "xyz" "xyz"
           (store_set sensor_store 7%nat o) (store_set sensor_store 7%nat o)
           o o); reflexivity.
Defined.

Lemma new_never_wraps_none_witness :
  exists f,
    VModel ["FloatAttr"; "Attr"]
      [("type", VStr "Number"); ("value", VFloat 1.5)]
    = VModel ["FloatAttr"; "Attr"]
        [("type", VStr "Number"); ("value", VFloat f)].
Proof.
  apply (proj1 (new_never_wraps_none no_float no_repr (VFloat 1.5)
                  (VModel ["FloatAttr"; "Attr"]
                     [("type", VStr "Number"); ("value", VFloat 1.5)]))).
  reflexivity.
Defined.

Lemma EntitiesUpsert_invariant_witness :
  exists es a,
    VModel ["EntitiesUpsert"]
      [("entities", VList [VModel ["BaseEntity"]
                             [("id", VStr "b1"); ("type", VStr "Bot")]]);
       ("actionType", VStr "append")]
    = VModel ["EntitiesUpsert"]
        [("entities", VList es); ("actionType", VStr a)] /\
    Forall (fun e => isinstance e "BaseEntity" = true) es /\
    (Dict.get "actionType"
       [("entities",
         VList [VDict [("id", VStr "b1"); ("type", VStr "Bot");
                       ("speed", VInt 3)]])] = None ->
     a = "append").
Proof.
  apply (EntitiesUpsert_invariant no_float no_repr
           [("entities",
             VList [VDict [("id", VStr "b1"); ("type", VStr "Bot");
                           ("speed", VInt 3)]])]).
  reflexivity.
Defined.

Lemma EntitiesUpsert_keeps_instances_witness :
  EntitiesUpsert no_float no_repr [("entities", VList [sensor; bot_b1])]
  = Ok (VModel ["EntitiesUpsert"]
          [("entities", VList [sensor; bot_b1]);
           ("actionType", VStr "append")]).
Proof.
  apply (EntitiesUpsert_keeps_instances no_float no_repr [sensor; bot_b1]).
  repeat constructor.
Defined.

Lemma from_raw_of_document_witness :
  from_raw no_float no_repr Robot
    [("id", VStr "r2"); ("type", VStr "Robot");
     ("speed", VDict [("type", VStr "Number"); ("value", VFloat 1.5)]);
     ("name", VDict [("type", VStr "Text"); ("value", VStr "r2")])]
  = Ok (Some robot).
Proof.
  apply (from_raw_of_document no_float no_repr Robot "Robot" "r2"
           robot_fields).
  - reflexivity.
  - repeat constructor.
  - repeat (constructor; [simpl; intuition discriminate|]). constructor.
  - simpl. intuition discriminate.
  - simpl. intuition discriminate.
  - reflexivity.
Defined.

Lemma from_raw_needs_type_literal_witness :
  exists e,
    from_raw no_float no_repr BaseEntity
      [("id", VStr "b1"); ("type", VStr "Bot")]
    = Raise e.
Proof.
  apply (from_raw_needs_type_literal no_float no_repr BaseEntity).
  reflexivity.
Defined.

Lemma none_is_not_a_default_witness :
  from_quantumleap_format no_repr [("attributes", VNone)] = Raise TypeError.
Proof.
  apply (proj1 (none_is_not_a_default no_repr [("attributes", VNone)])).
  reflexivity.
Defined.


Lemma from_raw_refuses_self_keyword_witness :
  from_raw no_float no_repr Bot
    [("id", VStr "b1"); ("type", VStr "Bot"); ("__pydantic_self__", VInt 1)]
  = Raise TypeError.
Proof.
  apply (from_raw_refuses_self_keyword no_float no_repr Bot "Bot"
           [("id", VStr "b1"); ("type", VStr "Bot");
            ("__pydantic_self__", VInt 1)] (VInt 1));
    try reflexivity.
  intros [].
Defined.

Lemma base_attribute_is_refused_witness :
  from_quantumleap_format no_repr
    [("attributes",
      VList [VDict [("attrName", VStr "__base__");
                    ("values", VList [VInt 1])]])]
  = Raise TypeError.
Proof.
  apply (base_attribute_is_refused no_repr
           [("attributes",
             VList [VDict [("attrName", VStr "__base__");
                           ("values", VList [VInt 1])]])]
           [VDict [("attrName", VStr "__base__");
                   ("values", VList [VInt 1])]]
           [Entry (VStr "__base__") (VList [VInt 1])] [] []
           (VDict [("attrName", VStr "__base__");
                   ("values", VList [VInt 1])]));
    try reflexivity.
  simpl. auto.
Defined.
